(** * Home.tsx: task store, derived views and assistant session

    A shallow embedding of [src/pages/Home.tsx]: the task collection kept
    by the [Home] component with its load and save effects, the views
    computed by [getFilteredTasks], [ListsView] and [StatsView], the
    [QuickAddModal] submit handler, and the message log of [AIChat]. *)

From Stdlib Require Import String Ascii ZArith NArith List Bool Lia.
From Stdlib Require Import Permutation.
From Stdlib Require Import PrimFloat Uint63.
From Stdlib Require Import DecimalString DecimalZ DecimalPos.
From ExtLib Require Import Structures.Monad Structures.MonadExc.
From ExtLib Require Import Data.Monads.EitherMonad.
Import ListNotations.

(** ** The JavaScript values and built-ins the component relies on *)

Module JS.

(** A JavaScript string is a sequence of UTF-16 code units. *)
Definition jsstring : Type := list N.

(** An ASCII string literal of the source. *)
Definition lit (s : string) : jsstring :=
  map N_of_ascii (list_ascii_of_string s).

(** [a === b] on strings. *)
Fixpoint str_eqb (a b : jsstring) : bool :=
  match a, b with
  | [], [] => true
  | x :: a', y :: b' => N.eqb x y && str_eqb a' b'
  | _, _ => false
  end.

(** ToBoolean on a string: only the empty string is falsy. *)
Definition truthy (s : jsstring) : bool :=
  match s with [] => false | _ :: _ => true end.

(** ToBoolean on [string | null] / [string | undefined]. *)
Definition truthy_opt (s : option jsstring) : bool :=
  match s with None => false | Some s' => truthy s' end.

(** The code units removed by [String.prototype.trim]: WhiteSpace and
    LineTerminator of ECMAScript (TAB, LF, VT, FF, CR, SP, NBSP, the
    Unicode space separators, LS, PS and the BOM). *)
Definition isWhiteSpace (c : N) : bool :=
  (existsb (N.eqb c)
     [9; 10; 11; 12; 13; 32; 160; 5760; 8232; 8233; 8239; 8287; 12288; 65279]
   || ((8192 <=? c) && (c <=? 8202)))%N.

Fixpoint trimStart (s : jsstring) : jsstring :=
  match s with
  | [] => []
  | c :: r => if isWhiteSpace c then trimStart r else s
  end.

Definition trimEnd (s : jsstring) : jsstring := rev (trimStart (rev s)).

Definition trim (s : jsstring) : jsstring := trimEnd (trimStart s).

(** [n.toString()] for an integral number below 1e21: its decimal
    digits, with a leading minus sign when negative. *)
Definition toString (n : Z) : jsstring :=
  lit (NilZero.string_of_int (Z.to_int n)).

(** The number holding an array length or a count (exact below 2^53). *)
Definition number_of_nat (n : nat) : float :=
  PrimFloat.of_uint63 (Uint63.of_Z (Z.of_nat n)).

(** *** Date

    A (valid) [Date] is its time value: milliseconds since the epoch,
    UTC; comparing two dates compares their time values.  The
    local-time methods go through [LocalTime] and [UTC] as ECMAScript
    defines them.  The host's time zone is given by its offset from UTC,
    in milliseconds, which may change in the course of time (daylight
    saving): [LocalTZA_utc t] is the offset in force at the instant [t],
    and [LocalTZA_local tl] the offset by which the local time [tl] is
    read (ECMAScript's LocalTZA(t, true) and LocalTZA(t, false); a local
    time that a transition skips or repeats is read with the offset
    before the transition). *)

Record TimeZone : Type := {
  LocalTZA_utc : Z -> Z;
  LocalTZA_local : Z -> Z
}.

(** A zone whose offset never changes, and UTC itself. *)
Definition fixedOffset (offset : Z) : TimeZone :=
  {| LocalTZA_utc := fun _ => offset; LocalTZA_local := fun _ => offset |}.

Definition utc : TimeZone := fixedOffset 0.

Definition msPerDay : Z := 86400000.

Definition Day (t : Z) : Z := t / msPerDay.
Definition TimeWithinDay (t : Z) : Z := t mod msPerDay.
Definition WeekDay (t : Z) : Z := (Day t + 4) mod 7.
Definition MakeDate (day time : Z) : Z := day * msPerDay + time.

Section LocalZone.
Variable zone : TimeZone.

Definition LocalTime (t : Z) : Z := t + LocalTZA_utc zone t.
Definition UTC (t : Z) : Z := t - LocalTZA_local zone t.

(** [d.setHours(0, 0, 0, 0)]: the local midnight of [d]'s local day. *)
Definition setHours0 (t : Z) : Z :=
  UTC (MakeDate (Day (LocalTime t)) 0).

(** The number of the local calendar day of [t]. *)
Definition localDay (t : Z) : Z := Day (LocalTime t).

(** [d.getDay()]: the local weekday, Sunday = 0. *)
Definition getDay (t : Z) : Z := WeekDay (LocalTime t).

(** [d.setDate(d.getDate() + k)]: MakeDay moves the local day number
    by [k] (rolling over month ends), the local time within the day is
    kept, and the result is read as a local time. *)
Definition addDate (t k : Z) : Z :=
  UTC (MakeDate (Day (LocalTime t) + k) (TimeWithinDay (LocalTime t))).

(** Two properties of a host's zone that some facts below depend on.
    The local midnights of successive days are successive instants (the
    offset does not grow by a whole day from one midnight to the
    next). *)
Definition midnights_in_order : Prop :=
  forall d : Z, (UTC (MakeDate d 0) < UTC (MakeDate (d + 1) 0))%Z.

(** A local time, read as an instant and printed as a local time again,
    is a time of the same local day (a transition may move it within the
    day). *)
Definition keeps_the_day : Prop :=
  forall tl : Z, Day (LocalTime (UTC tl)) = Day tl.
End LocalZone.

End JS.

Import JS.

(** ** The task collection and the [Home] component *)

Module Home.

Inductive Priority : Set := low | medium | high.

Record Task : Type := {
  id : jsstring;
  title : jsstring;
  completed : bool;
  priority : Priority;
  category : jsstring;
  dueDate : Z;
  createdAt : Z
}.

(** [Omit<Task, 'id' | 'completed' | 'createdAt'>]: what the add form
    holds and hands to [onAdd]. *)
Record NewTask : Type := {
  new_title : jsstring;
  new_priority : Priority;
  new_category : jsstring;
  new_dueDate : Z
}.

Inductive View : Set := today | upcoming | lists | stats.

(** *** QuickAddModal *)

(** [handleSubmit]: [None] is the early [return] on a blank title;
    [Some d] is the call [onAdd(d)]. *)
Definition QuickAddModal_handleSubmit (form : NewTask) : option NewTask :=
  if negb (truthy (trim (new_title form))) then None
  else Some {| new_title := new_title form;
               new_priority := new_priority form;
               new_category := new_category form;
               new_dueDate := new_dueDate form |}.

(** *** The three updaters passed to [setTasks] *)

(** [handleAddTask]: [now_id] is the reading of [Date.now()],
    [now_created] that of [new Date()]. *)
Definition handleAddTask (newTask : NewTask) (now_id now_created : Z)
           (prev : list Task) : list Task :=
  prev ++ [ {| id := toString now_id;
               title := new_title newTask;
               completed := false;
               priority := new_priority newTask;
               category := new_category newTask;
               dueDate := new_dueDate newTask;
               createdAt := now_created |} ].

Definition toggled (t : Task) : Task :=
  {| id := id t; title := title t; completed := negb (completed t);
     priority := priority t; category := category t;
     dueDate := dueDate t; createdAt := createdAt t |}.

Definition handleToggleTask (i : jsstring) (prev : list Task) : list Task :=
  map (fun t => if str_eqb (id t) i then toggled t else t) prev.

Definition handleDeleteTask (i : jsstring) (prev : list Task) : list Task :=
  filter (fun t => negb (str_eqb (id t) i)) prev.

(** *** ListsView *)

Definition categories : list jsstring :=
  [lit "Work"; lit "Personal"; lit "Shopping"].

Definition categoryCounts (tasks : list Task) : list (jsstring * nat) :=
  map (fun cat =>
         (cat, length (filter (fun t => str_eqb (category t) cat
                                        && negb (completed t)) tasks)))
      categories.

(** [handleCategoryClick]: the value given to both [setActiveCategory]
    and [onFilterChange]. *)
Definition handleCategoryClick (activeCategory : option jsstring)
           (cat : jsstring) : option jsstring :=
  match activeCategory with
  | Some a => if str_eqb a cat then None else Some cat
  | None => Some cat
  end.

(** *** StatsView *)

(** [n > 0 ? (c / n) * 100 : 0], the expression used for the overall,
    the weekly and the per-category rate. *)
Definition rate (c n : nat) : float :=
  if (0 <? n)%nat
  then PrimFloat.mul (PrimFloat.div (number_of_nat c) (number_of_nat n)) 100%float
  else 0%float.

Definition completionRate (tasks : list Task) : float :=
  rate (length (filter completed tasks)) (length tasks).

Section LocalZone.
Variable zone : TimeZone.

(** [startOfWeek]: a copy of [today] after
    [setDate(today.getDate() - today.getDay())]. *)
Definition startOfWeek (now : Z) : Z :=
  addDate zone now (- getDay zone now).

Definition weeklyTasks (now : Z) (tasks : list Task) : list Task :=
  filter (fun t => createdAt t >=? startOfWeek now)%Z tasks.

Definition weeklyRate (now : Z) (tasks : list Task) : float :=
  rate (length (filter completed (weeklyTasks now tasks)))
       (length (weeklyTasks now tasks)).

(** The week start and the weekly rate as the specification words them,
    for comparison with [startOfWeek] and [weeklyRate]: today minus its
    weekday index, truncated to the start of the day. *)
Definition startOfWeek_spec (now : Z) : Z :=
  setHours0 zone (addDate zone now (- getDay zone now)).

Definition weeklyRate_spec (now : Z) (tasks : list Task) : float :=
  let weekly := filter (fun t => createdAt t >=? startOfWeek_spec now)%Z tasks in
  rate (length (filter completed weekly)) (length weekly).

Definition categoryRate (cat : jsstring) (tasks : list Task) : float :=
  let categoryTasks := filter (fun t => str_eqb (category t) cat) tasks in
  rate (length (filter completed categoryTasks)) (length categoryTasks).

Record Stats : Type := {
  totalTasks : nat;
  completedTasks : nat;
  stat_completionRate : float;
  weeklyTotal : nat;
  weeklyCompleted : nat;
  stat_weeklyRate : float;
  breakdown : list (jsstring * float)
}.

Definition StatsView (now : Z) (tasks : list Task) : Stats :=
  {| totalTasks := length tasks;
     completedTasks := length (filter completed tasks);
     stat_completionRate := completionRate tasks;
     weeklyTotal := length (weeklyTasks now tasks);
     weeklyCompleted := length (filter completed (weeklyTasks now tasks));
     stat_weeklyRate := weeklyRate now tasks;
     breakdown := map (fun cat => (cat, categoryRate cat tasks)) categories |}.

(** *** getFilteredTasks *)

Definition getFilteredTasks (now : Z) (tasks : list Task)
           (activeView : View) (categoryFilter : option jsstring)
  : list Task :=
  let today0 := setHours0 zone now in
  let filtered :=
    match activeView with
    | today =>
        filter (fun t => setHours0 zone (dueDate t) =? today0)%Z tasks
    | upcoming =>
        filter (fun t => setHours0 zone (dueDate t) >? today0)%Z tasks
    | _ => tasks
    end in
  match categoryFilter with
  | Some c =>
      if truthy c
      then filter (fun t => str_eqb (category t) c) filtered
      else filtered
  | None => filtered
  end.
End LocalZone.

(** *** State, effects and event handlers of [Home] *)

(** The [useState] cells of [Home]. *)
Record State : Type := {
  tasks : list Task;
  activeView : View;
  showAddModal : bool;
  showAIChat : bool;
  categoryFilter : option jsstring
}.

(** The component together with what it shares with its surroundings:
    [activeCategory] is the state cell of the mounted [ListsView];
    [localStorage] is the item stored under ['taskflow_tasks'], held as
    the collection its JSON text encodes ([None]: [getItem] gives
    [null]); [setItemCalls] logs every [localStorage.setItem] call with
    the collection written. *)
Record World : Type := {
  home : State;
  activeCategory : option jsstring;
  localStorage : option (list Task);
  setItemCalls : list (list Task)
}.

Definition with_tasks (ts : list Task) (s : State) : State :=
  {| tasks := ts; activeView := activeView s;
     showAddModal := showAddModal s; showAIChat := showAIChat s;
     categoryFilter := categoryFilter s |}.

Definition with_view (v : View) (s : State) : State :=
  {| tasks := tasks s; activeView := v;
     showAddModal := showAddModal s; showAIChat := showAIChat s;
     categoryFilter := categoryFilter s |}.

Definition with_filter (c : option jsstring) (s : State) : State :=
  {| tasks := tasks s; activeView := activeView s;
     showAddModal := showAddModal s; showAIChat := showAIChat s;
     categoryFilter := c |}.

Definition with_addModal (b : bool) (s : State) : State :=
  {| tasks := tasks s; activeView := activeView s;
     showAddModal := b; showAIChat := showAIChat s;
     categoryFilter := categoryFilter s |}.

Definition with_aiChat (b : bool) (s : State) : State :=
  {| tasks := tasks s; activeView := activeView s;
     showAddModal := showAddModal s; showAIChat := b;
     categoryFilter := categoryFilter s |}.

Definition with_home (f : State -> State) (w : World) : World :=
  {| home := f (home w); activeCategory := activeCategory w;
     localStorage := localStorage w; setItemCalls := setItemCalls w |}.

Definition with_activeCategory (c : option jsstring) (w : World) : World :=
  {| home := home w; activeCategory := c;
     localStorage := localStorage w; setItemCalls := setItemCalls w |}.

(** The save effect, [useEffect(..., [tasks])]: it runs after every
    render in which [tasks] is a new array. *)
Definition saveEffect (w : World) : World :=
  if (0 <? length (tasks (home w)))%nat
  then {| home := home w; activeCategory := activeCategory w;
          localStorage := Some (tasks (home w));
          setItemCalls := setItemCalls w ++ [tasks (home w)] |}
  else w.

(** [setTasks(f)]: every updater of the source builds a new array, so
    the render that follows runs the save effect. *)
Definition setTasks (f : list Task -> list Task) (w : World) : World :=
  saveEffect (with_home (fun s => with_tasks (f (tasks s)) s) w).

(** The sample tasks of the load effect; [clock k] is the reading of
    the [k]-th [new Date()] in the array literal. *)
Definition sampleTasks (clock : nat -> Z) : list Task :=
  [ {| id := lit "1"; title := lit "Review Q1 project proposals";
       completed := false; priority := high; category := lit "Work";
       dueDate := clock 0%nat; createdAt := clock 1%nat |};
    {| id := lit "2"; title := lit "Buy groceries for the week";
       completed := false; priority := medium; category := lit "Shopping";
       dueDate := clock 2%nat; createdAt := clock 3%nat |};
    {| id := lit "3"; title := lit "Call mom to check in";
       completed := true; priority := low; category := lit "Personal";
       dueDate := clock 4%nat; createdAt := clock 5%nat |} ].

(** The collection the load effect passes to [setTasks]. *)
Definition loadEffect (clock : nat -> Z) (savedTasks : option (list Task))
  : list Task :=
  match savedTasks with
  | Some parsed =>
      map (fun t => {| id := id t; title := title t;
                       completed := completed t; priority := priority t;
                       category := category t;
                       dueDate := dueDate t; createdAt := createdAt t |})
          parsed
  | None => sampleTasks clock
  end.

Definition initialState : State :=
  {| tasks := []; activeView := today; showAddModal := false;
     showAIChat := false; categoryFilter := None |}.

(** Mounting [Home]: the first render has [tasks = []]; the load effect
    runs and queues its [setTasks]; the save effect runs on the first
    render; the queued update is rendered and the save effect runs
    again. *)
Definition mount (clock : nat -> Z) (stored : option (list Task)) : World :=
  let w0 := {| home := initialState; activeCategory := None;
               localStorage := stored; setItemCalls := [] |} in
  let loaded := loadEffect clock (localStorage w0) in
  let w1 := saveEffect w0 in
  setTasks (fun _ => loaded) w1.

(** What the user can do on the page. *)
Inductive Event : Type :=
| SubmitAdd (form : NewTask) (now_id now_created : Z)
| ToggleTask (i : jsstring)
| DeleteTask (i : jsstring)
| Navigate (v : View)
| CategoryClick (cat : jsstring)
| ClearFilter
| OpenAddModal
| CloseAddModal
| OpenAIChat
| CloseAIChat.

Definition is_lists (v : View) : bool :=
  match v with lists => true | _ => false end.

(** One event handled to completion.  [None]: the handler returned
    early and no state was set. *)
Definition step (e : Event) (w : World) : option World :=
  match e with
  | SubmitAdd form now_id now_created =>
      match QuickAddModal_handleSubmit form with
      | None => None
      | Some newTask =>
          Some (setTasks (handleAddTask newTask now_id now_created)
                         (with_home (with_addModal false) w))
      end
  | ToggleTask i => Some (setTasks (handleToggleTask i) w)
  | DeleteTask i => Some (setTasks (handleDeleteTask i) w)
  | Navigate v =>
      (* ListsView keeps its state only while it stays mounted *)
      let kept := if is_lists (activeView (home w)) && is_lists v
                  then activeCategory w else None in
      Some (with_activeCategory kept
              (with_home (fun s => with_filter None (with_view v s)) w))
  | CategoryClick cat =>
      let newCategory := handleCategoryClick (activeCategory w) cat in
      Some (with_activeCategory newCategory
              (with_home (with_filter newCategory) w))
  | ClearFilter => Some (with_home (with_filter None) w)
  | OpenAddModal => Some (with_home (with_addModal true) w)
  | CloseAddModal => Some (with_home (with_addModal false) w)
  | OpenAIChat => Some (with_home (with_aiChat true) w)
  | CloseAIChat => Some (with_home (with_aiChat false) w)
  end.

(** One event handled; an early [return] leaves the world as it is. *)
Definition run (e : Event) (w : World) : World :=
  match step e w with
  | Some w' => w'
  | None => w
  end.

(** The events that call [setTasks] from a handler. *)
Definition mutation (e : Event) : bool :=
  match e with
  | SubmitAdd _ _ _ | ToggleTask _ | DeleteTask _ => true
  | _ => false
  end.

(** The worlds the page can be in: mounted, then any events. *)
Inductive reachable : World -> Prop :=
| reach_mount clock stored : reachable (mount clock stored)
| reach_step e w w' : reachable w -> step e w = Some w' -> reachable w'.

(** *** What [Home] renders in [<main>] *)

Inductive Screen : Type :=
| TaskCards (incompleteTasks completedTasks : list Task)
| ListsScreen (counts : list (jsstring * nat)) (active : option jsstring)
| StatsScreen (s : Stats).

Section Rendering.
Variable zone : TimeZone.

Definition render (now : Z) (w : World) : Screen :=
  let s := home w in
  match activeView s with
  | lists => ListsScreen (categoryCounts (tasks s)) (activeCategory w)
  | stats => StatsScreen (StatsView zone now (tasks s))
  | v =>
      let filteredTasks :=
        getFilteredTasks zone now (tasks s) v (categoryFilter s) in
      TaskCards (filter (fun t => negb (completed t)) filteredTasks)
                (filter completed filteredTasks)
  end.
End Rendering.

(** *** formatDate, the due-date label of a [TaskCard] *)

Inductive DateLabel : Type :=
| Today
| Tomorrow
| MonthDay (day : Z).

Section Labels.
Variable zone : TimeZone.

(** [d.toDateString()] prints the weekday, month, day and year of the
    local calendar day of [d] and nothing else; two such texts are equal
    exactly when the days are, so the text is held as the day number. *)
Definition toDateString (t : Z) : Z := localDay zone t.

(** [formatDate]; [now] is the reading of its [new Date()].  The last
    branch prints the month and day of [date]'s local day. *)
Definition formatDate (now date : Z) : DateLabel :=
  let today0 := now in
  let tomorrow := addDate zone today0 1 in
  if (toDateString date =? toDateString today0)%Z then Today
  else if (toDateString date =? toDateString tomorrow)%Z then Tomorrow
  else MonthDay (localDay zone date).
End Labels.

(** *** The events the page offers *)

(** Whether the page has the control that raises the event.  Only the
    category cards are restricted here: they are rendered by [ListsView],
    one for each of the three categories, and [ListsView] is rendered
    only while [activeView === 'lists'].  Every other event is taken to
    be possible at any time. *)
Definition offered (e : Event) (w : World) : bool :=
  match e with
  | CategoryClick cat =>
      is_lists (activeView (home w)) && existsb (str_eqb cat) categories
  | _ => true
  end.

(** The worlds reached through offered events only. *)
Inductive visited : World -> Prop :=
| visit_mount clock stored : visited (mount clock stored)
| visit_step e w w' :
    visited w -> offered e w = true -> step e w = Some w' -> visited w'.

(** The filter is only ever set inside the Lists view, to the category
    highlighted there. *)
Definition filter_state_ok (w : World) : Prop :=
  (is_lists (activeView (home w)) = false ->
   categoryFilter (home w) = None /\ activeCategory w = None) /\
  (categoryFilter (home w) = None \/
   categoryFilter (home w) = activeCategory w /\
   exists c, categoryFilter (home w) = Some c /\ In c categories).

End Home.

(** ** The assistant dialog, [AIChat] *)

Module AIChat.
Import MonadNotation.
Local Open Scope monad_scope.

Inductive Role : Set := user | assistant.

Record ChatMessage : Type := {
  id : jsstring;
  type : Role;
  content : jsstring;
  tips : option (list jsstring);
  prioritySuggestions : option (list jsstring);
  relatedTopics : option (list jsstring);
  timestamp : Z
}.

Record TaskAssistantResult : Type := {
  answer : jsstring;
  result_tips : list jsstring;
  priority_suggestions : list jsstring;
  related_topics : list jsstring
}.

(** Modelled from the spec: the type [NormalizedAgentResponse] is
    declared in [@/utils/aiAgent], which is not among the sources.  The
    envelope is [{ success, response: { status, result?, message? } }]. *)
Record AgentResponse : Type := {
  status : jsstring;
  result : option TaskAssistantResult;
  message : option jsstring
}.

Record NormalizedAgentResponse : Type := {
  success : bool;
  response : AgentResponse
}.

(** A well-formed success payload. *)
Definition successPayload (data : TaskAssistantResult)
           (msg : option jsstring) : NormalizedAgentResponse :=
  {| success := true;
     response := {| status := lit "success"; result := Some data;
                    message := msg |} |}.

Definition AGENT_ID : jsstring := lit "697176e5d6d0dcaec1119067".

Definition suggestions : list jsstring :=
  [ lit "Prioritize my tasks";
    lit "What should I focus on?";
    lit "Help me manage my time";
    lit "Tips for productivity" ].

(** What can be thrown inside the [try] block: the awaited promise is
    rejected, or [data.answer] is read from an [undefined] result. *)
Inductive Thrown : Set := Rejected | TypeError.

Definition Completion : Type -> Type := sum Thrown.

(** The [useState] cells of [AIChat]. *)
Record State : Type := {
  messages : list ChatMessage;
  input : jsstring;
  loading : bool
}.

(** The dialog and the collaborator: [requests] logs every call
    [callAIAgent(text, agentId)]; [inflight] counts the calls whose
    promise has not settled yet. *)
Record World : Type := {
  ui : State;
  requests : list (jsstring * jsstring);
  inflight : nat
}.

Definition initial : World :=
  {| ui := {| messages := []; input := []; loading := false |};
     requests := []; inflight := 0 |}.

Definition userMessage (text : jsstring) (now_id now_ts : Z) : ChatMessage :=
  {| id := toString now_id; type := user; content := text;
     tips := None; prioritySuggestions := None; relatedTopics := None;
     timestamp := now_ts |}.

(** [handleSendMessage] up to its [await]. *)
Definition handleSendMessage (text : jsstring) (now_id now_ts : Z)
           (w : World) : World :=
  {| ui := {| messages := messages (ui w) ++ [userMessage text now_id now_ts];
              input := [];
              loading := true |};
     requests := requests w ++ [(text, AGENT_ID)];
     inflight := S (inflight w) |}.

(** How the promise returned by [callAIAgent] settles. *)
Inductive Settlement : Type :=
| Fulfilled (res : NormalizedAgentResponse)
| RejectedPromise.

(** [await p]: the value of a fulfilled promise; a rejection is thrown. *)
Definition await (p : Settlement) : Completion NormalizedAgentResponse :=
  match p with
  | Fulfilled res => ret res
  | RejectedPromise => raise Rejected
  end.

(** The [try] block from the [await] on; [clock k] is the [k]-th clock
    reading made once the promise has settled. *)
Definition tryBlock (awaited : Settlement)
           (clock : nat -> Z) : Completion ChatMessage :=
  res <- await awaited ;;
  if success res && str_eqb (status (response res)) (lit "success")
  then
    let new_id := toString (clock 0%nat + 1) in
    data <- match result (response res) with
            | Some d => ret d
            | None => raise TypeError
            end ;;
    ret {| id := new_id; type := assistant;
           content := answer data;
           tips := Some (result_tips data);
           prioritySuggestions := Some (priority_suggestions data);
           relatedTopics := Some (related_topics data);
           timestamp := clock 1%nat |}
  else
    ret {| id := toString (clock 0%nat + 1); type := assistant;
           content := if truthy_opt (message (response res))
                      then match message (response res) with
                           | Some m => m
                           | None => []
                           end
                      else lit "Sorry, I encountered an error. Please try again.";
           tips := None; prioritySuggestions := None; relatedTopics := None;
           timestamp := clock 1%nat |}.

(** Clock readings made in the [try] block before the exception. *)
Definition readsBefore (e : Thrown) : nat :=
  match e with Rejected => 0 | TypeError => 1 end.

Definition catchBlock (e : Thrown) (clock : nat -> Z) : ChatMessage :=
  {| id := toString (clock (readsBefore e) + 1); type := assistant;
     content := lit "Network error. Please check your connection and try again.";
     tips := None; prioritySuggestions := None; relatedTopics := None;
     timestamp := clock (S (readsBefore e)) |}.

(** The one message the [try]/[catch] passes to [setMessages]. *)
Definition replyMessage (awaited : Settlement)
           (clock : nat -> Z) : ChatMessage :=
  match tryBlock awaited clock with
  | inr m => m
  | inl e => catchBlock e clock
  end.

(** [handleSendMessage] from the settling of the promise to the end of
    [finally]. *)
Definition settle (awaited : Settlement)
           (clock : nat -> Z) (w : World) : World :=
  {| ui := {| messages := messages (ui w) ++ [replyMessage awaited clock];
              input := input (ui w);
              loading := false |};
     requests := requests w;
     inflight := Nat.pred (inflight w) |}.

(** [handleSubmit] of the form: [None] is the early [return]. *)
Definition handleSubmit (now_id now_ts : Z) (w : World) : option World :=
  if negb (truthy (trim (input (ui w)))) || loading (ui w) then None
  else Some (handleSendMessage (input (ui w)) now_id now_ts w).

Definition handleSuggestionClick (suggestion : jsstring) (now_id now_ts : Z)
           (w : World) : World :=
  handleSendMessage suggestion now_id now_ts w.

Inductive Event : Type :=
| TypeInput (s : jsstring)
| SubmitForm (now_id now_ts : Z)
| SuggestionClick (k : nat) (now_id now_ts : Z)
| Settle (awaited : Settlement) (clock : nat -> Z).

(** The events by which the user asks for a message to be sent. *)
Definition sendIntent (e : Event) : bool :=
  match e with
  | SubmitForm _ _ | SuggestionClick _ _ _ => true
  | _ => false
  end.

(** Whether the page offers the event: the input is disabled while
    loading, the suggestion buttons are rendered only while
    [messages.length === 0], and a promise settles only if a call is
    outstanding.  The form's submit event is not restricted. *)
Definition available (e : Event) (w : World) : bool :=
  match e with
  | TypeInput _ => negb (loading (ui w))
  | SubmitForm _ _ => true
  | SuggestionClick k _ _ =>
      (length (messages (ui w)) =? 0)%nat && (k <? length suggestions)%nat
  | Settle _ _ => (0 <? inflight w)%nat
  end.

(** One event handled; an early [return] leaves the world as it is. *)
Definition run (e : Event) (w : World) : World :=
  match e with
  | TypeInput s =>
      {| ui := {| messages := messages (ui w); input := s;
                  loading := loading (ui w) |};
         requests := requests w; inflight := inflight w |}
  | SubmitForm now_id now_ts =>
      match handleSubmit now_id now_ts w with
      | Some w' => w'
      | None => w
      end
  | SuggestionClick k now_id now_ts =>
      handleSuggestionClick (nth k suggestions []) now_id now_ts w
  | Settle awaited clock => settle awaited clock w
  end.

Inductive reachable : World -> Prop :=
| reach_initial : reachable initial
| reach_run e w : reachable w -> available e w = true -> reachable (run e w).

Definition other (r : Role) : Role :=
  match r with user => assistant | assistant => user end.

Definition role_eqb (a b : Role) : bool :=
  match a, b with
  | user, user | assistant, assistant => true
  | _, _ => false
  end.

(** The log takes turns: its first message is from [next], and each
    message is followed by one from the other side. *)
Fixpoint alternates (next : Role) (l : list ChatMessage) : bool :=
  match l with
  | [] => true
  | m :: r => role_eqb (type m) next && alternates (other next) r
  end.

Definition countRole (r : Role) (l : list ChatMessage) : nat :=
  length (filter (fun m => match type m, r with
                           | user, user | assistant, assistant => true
                           | _, _ => false
                           end) l).

End AIChat.

(** ** Sample data used in the examples below *)

Module Examples.

(** Sunday 7 January 2024 at 15:00 and at 10:00 UTC, the Monday after and
    the Saturday before at 09:00 UTC. *)
Definition sunday_3pm : Z := 1704639600000.
Definition sunday_10am : Z := 1704621600000.
Definition monday_9am : Z := 1704704400000.
Definition saturday_9am : Z := 1704531600000.

Definition clock : nat -> Z := fun _ => sunday_3pm.

Definition task (i : string) (cat : string) (done : bool) (due created : Z)
  : Home.Task :=
  {| Home.id := lit i; Home.title := lit "Water the plants";
     Home.completed := done; Home.priority := Home.medium;
     Home.category := lit cat;
     Home.dueDate := due; Home.createdAt := created |}.

Definition dueToday : Home.Task :=
  task "11" "Work" false sunday_10am saturday_9am.
Definition dueTomorrow : Home.Task :=
  task "12" "Personal" false monday_9am saturday_9am.
Definition dueYesterday : Home.Task :=
  task "13" "Work" true saturday_9am saturday_9am.
Definition doneThisMorning : Home.Task :=
  task "14" "Personal" true sunday_10am sunday_10am.

Definition store : list Home.Task := [dueToday; dueTomorrow; dueYesterday].

(** New York in 2024: five hours behind UTC, and four hours behind from
    10 March 07:00 UTC to 3 November 06:00 UTC.  In local terms the clock
    goes from 02:00 to 03:00 on 10 March and from 02:00 back to 01:00 on
    3 November. *)
Definition new_york_2024 : TimeZone :=
  {| LocalTZA_utc := fun t =>
       if ((1710054000000 <=? t) && (t <? 1730613600000))%Z
       then (-14400000)%Z else (-18000000)%Z;
     LocalTZA_local := fun tl =>
       if ((1710039600000 <=? tl) && (tl <? 1730599200000))%Z
       then (-14400000)%Z else (-18000000)%Z |}.

(** Sunday 3 November 2024 in New York, a day of 25 hours: 10:00 EST;
    the midnight that begins the day (00:00 EDT); 23:30 EST that evening;
    00:30 EST on Monday; 23:30 EDT on Saturday. *)
Definition nov3_10am : Z := 1730646000000.
Definition nov3_midnight : Z := 1730606400000.
Definition nov3_late_evening : Z := 1730694600000.
Definition nov4_half_past_midnight : Z := 1730698200000.
Definition nov2_late_evening : Z := 1730604600000.

Definition atMidnight : Home.Task :=
  task "21" "Work" false nov3_midnight nov2_late_evening.
Definition lateEvening : Home.Task :=
  task "22" "Personal" false nov3_late_evening nov2_late_evening.
Definition nextDay : Home.Task :=
  task "23" "Work" false nov4_half_past_midnight nov2_late_evening.
Definition eveningBefore : Home.Task :=
  task "24" "Shopping" true nov2_late_evening nov2_late_evening.

Definition nov6_half_past_midnight : Z := 1730871000000.

Definition fallBackStore : list Home.Task :=
  [atMidnight; lateEvening; nextDay; eveningBefore].

Definition form (t : string) : Home.NewTask :=
  {| Home.new_title := lit t; Home.new_priority := Home.high;
     Home.new_category := lit "Work"; Home.new_dueDate := monday_9am |}.

Definition advice : AIChat.TaskAssistantResult :=
  {| AIChat.answer := lit "Focus on high priority";
     AIChat.result_tips := [lit "Do urgent first"];
     AIChat.priority_suggestions := [lit "Review Q1"];
     AIChat.related_topics := [lit "time-management"] |}.

Definition softError : AIChat.NormalizedAgentResponse :=
  {| AIChat.success := true;
     AIChat.response := {| AIChat.status := lit "error";
                           AIChat.result := None;
                           AIChat.message := Some (lit "Quota exceeded") |} |}.

(** The dialog while a reply is awaited, with a text in the input
    field. *)
Definition busyWithDraft : AIChat.World :=
  {| AIChat.ui :=
       {| AIChat.messages :=
            [AIChat.userMessage (lit "Prioritize my tasks") sunday_10am sunday_10am];
          AIChat.input := lit "Plan my week";
          AIChat.loading := true |};
     AIChat.requests := [(lit "Prioritize my tasks", AIChat.AGENT_ID)];
     AIChat.inflight := 1 |}.

End Examples.

(** ** Facts about the built-ins *)

Lemma str_eqb_eq (a b : jsstring) : str_eqb a b = true <-> a = b.
Proof.
  revert b; induction a as [|x a IH]; intros [|y b]; simpl;
    try (split; [discriminate | intros H; inversion H]); [tauto|].
  rewrite andb_true_iff, N.eqb_eq, IH.
  split; [intros [-> ->]; reflexivity | intros H; inversion H; auto].
Qed.

Lemma str_eqb_refl (a : jsstring) : str_eqb a a = true.
Proof. apply str_eqb_eq; reflexivity. Qed.

Lemma str_eqb_neq (a b : jsstring) : str_eqb a b = false <-> a <> b.
Proof.
  rewrite <- str_eqb_eq. destruct (str_eqb a b); split; congruence.
Qed.

Lemma trimStart_nil_iff (s : jsstring) :
  trimStart s = [] <-> forallb isWhiteSpace s = true.
Proof.
  induction s as [|c r IH]; simpl; [tauto|].
  destruct (isWhiteSpace c); simpl; [exact IH|].
  split; discriminate.
Qed.

Lemma trimStart_suffix (s : jsstring) :
  exists p, s = p ++ trimStart s /\ forallb isWhiteSpace p = true.
Proof.
  induction s as [|c r [p [Hp Hw]]]; simpl.
  - exists []; auto.
  - destruct (isWhiteSpace c) eqn:Hc.
    + exists (c :: p); simpl; rewrite Hc, Hw; split; [congruence | reflexivity].
    + exists []; auto.
Qed.

(** [title.trim()] is the empty string exactly when every code unit of
    [title] is white space (in particular when [title] is empty). *)
Lemma trim_nil_iff (s : jsstring) :
  trim s = [] <-> forallb isWhiteSpace s = true.
Proof.
  unfold trim, trimEnd. split.
  - intros H.
    assert (H' : trimStart (rev (trimStart s)) = []).
    { rewrite <- (rev_involutive (trimStart _)), H; reflexivity. }
    apply trimStart_nil_iff in H'.
    rewrite forallb_forall in H'.
    destruct (trimStart_suffix s) as [p [Hp Hw]].
    rewrite Hp, forallb_app, Hw; simpl.
    apply forallb_forall; intros x Hx; apply H', in_rev.
    rewrite rev_involutive; exact Hx.
  - intros H. apply trimStart_nil_iff in H. rewrite H; reflexivity.
Qed.

Lemma lit_inj (s1 s2 : string) : lit s1 = lit s2 -> s1 = s2.
Proof.
  unfold lit; intros H.
  rewrite <- (string_of_list_ascii_of_string s1),
          <- (string_of_list_ascii_of_string s2).
  f_equal. revert H.
  generalize (list_ascii_of_string s1) (list_ascii_of_string s2).
  induction l as [|a l IH]; intros [|b l']; simpl; try discriminate; auto.
  intros H; inversion H as [[Hab Hl]].
  f_equal; [|auto].
  rewrite <- (ascii_N_embedding a), <- (ascii_N_embedding b), Hab; reflexivity.
Qed.

Lemma to_int_not_nil (n : Z) :
  Z.to_int n <> Decimal.Pos Decimal.Nil /\ Z.to_int n <> Decimal.Neg Decimal.Nil.
Proof.
  destruct n as [|p|p]; simpl; split; try discriminate;
    intros H; inversion H as [H']; revert H'; apply Unsigned.to_uint_nonnil.
Qed.

(** Distinct integers have distinct decimal renderings. *)
Lemma toString_inj (a b : Z) : toString a = toString b -> a = b.
Proof.
  unfold toString; intros H; apply lit_inj in H.
  apply DecimalZ.to_int_inj.
  destruct (to_int_not_nil a) as [Ha1 Ha2], (to_int_not_nil b) as [Hb1 Hb2].
  pose proof (NilZero.isi _ Ha1 Ha2) as Ia.
  pose proof (NilZero.isi _ Hb1 Hb2) as Ib.
  rewrite H in Ia; congruence.
Qed.

(** ** Time zones *)

Module ZoneFacts.

Lemma Day_window (t q : Z) :
  Day t = q <-> (q * msPerDay <= t < q * msPerDay + msPerDay)%Z.
Proof.
  unfold Day.
  pose proof (Z.div_mod t msPerDay) as E.
  pose proof (Z.mod_pos_bound t msPerDay) as B.
  unfold msPerDay in *; lia.
Qed.

(** With an offset that never changes both properties hold. *)
Lemma fixedOffset_midnights_in_order (o : Z) : midnights_in_order (fixedOffset o).
Proof. intros d; unfold UTC, MakeDate, msPerDay; simpl; lia. Qed.

Lemma fixedOffset_keeps_the_day (o : Z) : keeps_the_day (fixedOffset o).
Proof.
  intros tl; unfold LocalTime, UTC; simpl; f_equal; lia.
Qed.

(** They also hold across the two clock changes of New York in 2024. *)
Lemma new_york_midnights_in_order : midnights_in_order Examples.new_york_2024.
Proof.
  intros d; unfold UTC, MakeDate, msPerDay; simpl.
  repeat match goal with
         | |- context [if ?c then _ else _] => destruct c
         end; lia.
Qed.

Lemma new_york_keeps_the_day : keeps_the_day Examples.new_york_2024.
Proof.
  intros tl; unfold LocalTime, UTC; simpl.
  destruct ((1710039600000 <=? tl) && (tl <? 1730599200000))%Z eqn:L.
  - apply andb_true_iff in L; destruct L as [L1 L2].
    apply Z.leb_le in L1; apply Z.ltb_lt in L2.
    replace ((1710054000000 <=? tl - -14400000)
             && (tl - -14400000 <? 1730613600000))%Z with true
      by (symmetry; apply andb_true_iff; split;
          [apply Z.leb_le | apply Z.ltb_lt]; lia).
    f_equal; lia.
  - destruct ((1710054000000 <=? tl - -18000000)
              && (tl - -18000000 <? 1730613600000))%Z eqn:U.
    + apply andb_true_iff in U; destruct U as [U1 U2].
      apply Z.leb_le in U1; apply Z.ltb_lt in U2.
      apply andb_false_iff in L.
      assert (G : (1710036000000 <= tl < 1710039600000)%Z).
      { destruct L as [L|L]; [apply Z.leb_gt in L | apply Z.ltb_ge in L]; lia. }
      transitivity 19792%Z; [|symmetry]; apply Day_window;
        unfold msPerDay; lia.
    + f_equal; lia.
Qed.

End ZoneFacts.

(** ** Properties of the views *)

Module ViewFacts.
Import Home.

Section LocalZone.
Variable tz : TimeZone.

Lemma setHours0_localDay (t : Z) :
  setHours0 tz t = UTC tz (MakeDate (localDay tz t) 0).
Proof. reflexivity. Qed.

(** Later days have later midnights. *)
Lemma midnights_increase (d e : Z) :
  midnights_in_order tz -> (d < e)%Z ->
  (UTC tz (MakeDate d 0) < UTC tz (MakeDate e 0))%Z.
Proof.
  intros H Hde.
  assert (N : forall n : nat,
             (UTC tz (MakeDate d 0) < UTC tz (MakeDate (d + Z.of_nat (S n)) 0))%Z).
  { induction n as [|n IH].
    - apply H.
    - replace (d + Z.of_nat (S (S n)))%Z with (d + Z.of_nat (S n) + 1)%Z by lia.
      eapply Z.lt_trans; [exact IH | apply H]. }
  specialize (N (Z.to_nat (e - d - 1))).
  replace (d + Z.of_nat (S (Z.to_nat (e - d - 1))))%Z with e in N by lia.
  exact N.
Qed.

Lemma startOfDay_eq_iff (a b : Z) :
  midnights_in_order tz ->
  (setHours0 tz a = setHours0 tz b <-> localDay tz a = localDay tz b).
Proof.
  intros H; rewrite !setHours0_localDay; split; [|intros ->; reflexivity].
  intros E.
  destruct (Z.lt_trichotomy (localDay tz a) (localDay tz b)) as [L|[L|L]];
    [|exact L|]; apply (midnights_increase _ _ H) in L; lia.
Qed.

Lemma startOfDay_gt_iff (a b : Z) :
  midnights_in_order tz ->
  ((setHours0 tz a > setHours0 tz b)%Z <-> (localDay tz a > localDay tz b)%Z).
Proof.
  intros H; rewrite !setHours0_localDay; split.
  - intros G.
    destruct (Z.lt_trichotomy (localDay tz a) (localDay tz b)) as [L|[L|L]];
      [apply (midnights_increase _ _ H) in L; lia | rewrite L in G; lia | lia].
  - intros G; apply Z.lt_gt, midnights_increase; [exact H | lia].
Qed.

(** Truncation keeps the calendar day. *)
Lemma startOfDay_same_day (t : Z) :
  keeps_the_day tz -> localDay tz (setHours0 tz t) = localDay tz t.
Proof.
  intros K; unfold localDay at 1, setHours0; rewrite K.
  apply ZoneFacts.Day_window; unfold localDay, MakeDate, msPerDay; lia.
Qed.

Lemma view_today_In (now : Z) (tasks : list Task) (t : Task) :
  In t (getFilteredTasks tz now tasks today None) <->
  In t tasks /\ setHours0 tz (dueDate t) = setHours0 tz now.
Proof.
  unfold getFilteredTasks; rewrite filter_In, Z.eqb_eq; reflexivity.
Qed.

Lemma view_upcoming_In (now : Z) (tasks : list Task) (t : Task) :
  In t (getFilteredTasks tz now tasks upcoming None) <->
  In t tasks /\ (setHours0 tz (dueDate t) > setHours0 tz now)%Z.
Proof.
  unfold getFilteredTasks; rewrite filter_In, Z.gtb_gt; reflexivity.
Qed.

(** The category filter only removes tasks from a view. *)
Lemma view_filter_incl (now : Z) (tasks : list Task) (v : View)
      (cf : option jsstring) (t : Task) :
  In t (getFilteredTasks tz now tasks v cf) ->
  In t (getFilteredTasks tz now tasks v None).
Proof.
  unfold getFilteredTasks; destruct cf as [c|]; [|tauto].
  destruct (truthy c); [|tauto].
  rewrite filter_In; tauto.
Qed.

(** C1.  With no category selected, the Today view holds exactly the
    stored tasks whose due date, truncated to the start of its day,
    equals the truncated current date, and the Upcoming view exactly
    those whose truncated due date is strictly later.  Hence a stored
    task due on today's calendar day, whatever its time of day, is in
    Today and (under any category filter) not in Upcoming; and, in a
    time zone whose successive local midnights are successive instants,
    one due on the next day is in Upcoming and not in Today, and one due
    on the previous day is in neither.  The zone may change its offset
    (daylight saving). *)
Theorem today_upcoming_membership (now : Z) (tasks : list Task) (t : Task) :
  (In t (getFilteredTasks tz now tasks today None) <->
     In t tasks /\ setHours0 tz (dueDate t) = setHours0 tz now) /\
  (In t (getFilteredTasks tz now tasks upcoming None) <->
     In t tasks /\ (setHours0 tz (dueDate t) > setHours0 tz now)%Z) /\
  (In t tasks -> localDay tz (dueDate t) = localDay tz now ->
     In t (getFilteredTasks tz now tasks today None) /\
     forall cf, ~ In t (getFilteredTasks tz now tasks upcoming cf)) /\
  (midnights_in_order tz ->
   In t tasks -> localDay tz (dueDate t) = (localDay tz now + 1)%Z ->
     In t (getFilteredTasks tz now tasks upcoming None) /\
     forall cf, ~ In t (getFilteredTasks tz now tasks today cf)) /\
  (midnights_in_order tz ->
   In t tasks -> localDay tz (dueDate t) = (localDay tz now - 1)%Z ->
     forall cf, ~ In t (getFilteredTasks tz now tasks today cf) /\
                ~ In t (getFilteredTasks tz now tasks upcoming cf)).
Proof.
  split; [apply view_today_In|].
  split; [apply view_upcoming_In|].
  split; [|split].
  - intros Hin Hd.
    assert (E : setHours0 tz (dueDate t) = setHours0 tz now)
      by (rewrite !setHours0_localDay, Hd; reflexivity).
    split; [apply view_today_In; split; assumption|].
    intros cf Hc; apply view_filter_incl, view_upcoming_In in Hc.
    destruct Hc as [_ Hc]; lia.
  - intros H Hin Hd; split.
    + apply view_upcoming_In; split; [assumption|].
      apply (startOfDay_gt_iff _ _ H); lia.
    + intros cf Hc; apply view_filter_incl, view_today_In in Hc.
      destruct Hc as [_ Hc]; apply (startOfDay_eq_iff _ _ H) in Hc; lia.
  - intros H Hin Hd cf; split.
    + intros Hc; apply view_filter_incl, view_today_In in Hc.
      destruct Hc as [_ Hc]; apply (startOfDay_eq_iff _ _ H) in Hc; lia.
    + intros Hc; apply view_filter_incl, view_upcoming_In in Hc.
      destruct Hc as [_ Hc]; apply (startOfDay_gt_iff _ _ H) in Hc; lia.
Qed.

End LocalZone.
End ViewFacts.

(** ** Properties of the task collection *)

Module StoreFacts.
Import Home.

Lemma toggled_involutive (t : Task) : toggled (toggled t) = t.
Proof. destruct t; unfold toggled; simpl; rewrite negb_involutive; reflexivity. Qed.

Lemma handleToggleTask_twice (i : jsstring) (prev : list Task) :
  handleToggleTask i (handleToggleTask i prev) = prev.
Proof.
  unfold handleToggleTask; rewrite map_map.
  rewrite <- (map_id prev) at 2; apply map_ext; intros t.
  destruct (str_eqb (id t) i) eqn:E; simpl; rewrite E;
    [apply toggled_involutive | reflexivity].
Qed.

Lemma handleToggleTask_absent (i : jsstring) (prev : list Task) :
  (forall t, In t prev -> id t <> i) -> handleToggleTask i prev = prev.
Proof.
  intros H; unfold handleToggleTask.
  rewrite <- (map_id prev) at 2; apply map_ext_in; intros t Ht.
  apply H, str_eqb_neq in Ht; rewrite Ht; reflexivity.
Qed.

Lemma handleToggleTask_nth (i : jsstring) (prev : list Task) (k : nat) :
  nth_error (handleToggleTask i prev) k =
  option_map (fun t => if str_eqb (id t) i then toggled t else t)
             (nth_error prev k).
Proof. unfold handleToggleTask; apply nth_error_map. Qed.

(** C9.  [handleToggleTask] keeps the length of the collection and every
    position; at each position the task keeps its id, title, priority,
    category, due date and creation time; a task whose id is the one
    toggled gets its [completed] negated, and every task with another id
    is left as it was. *)
Theorem toggle_frame (i : jsstring) (prev : list Task) :
  length (handleToggleTask i prev) = length prev /\
  forall (k : nat) (t : Task),
    nth_error prev k = Some t ->
    exists t',
      nth_error (handleToggleTask i prev) k = Some t' /\
      id t' = id t /\ title t' = title t /\ priority t' = priority t /\
      category t' = category t /\ dueDate t' = dueDate t /\
      createdAt t' = createdAt t /\
      (id t = i -> completed t' = negb (completed t)) /\
      (id t <> i -> t' = t).
Proof.
  split; [apply length_map|].
  intros k t Hk; rewrite handleToggleTask_nth, Hk; simpl.
  destruct (str_eqb (id t) i) eqn:E.
  - exists (toggled t); apply str_eqb_eq in E.
    repeat split; auto; congruence.
  - exists t; apply str_eqb_neq in E.
    repeat split; auto; congruence.
Qed.

(** C5, as the code has it.  Toggling the same id twice gives back the
    collection; toggling an id that no task carries leaves the collection
    as it is, and the handler does not refuse it: it sets the state like
    any other toggle. *)
Theorem toggle_twice_and_absent (i : jsstring) (w : World) :
  handleToggleTask i (handleToggleTask i (tasks (home w))) = tasks (home w) /\
  (forall w1 w2, step (ToggleTask i) w = Some w1 ->
                 step (ToggleTask i) w1 = Some w2 ->
                 tasks (home w2) = tasks (home w)) /\
  ((forall t, In t (tasks (home w)) -> id t <> i) ->
   exists w', step (ToggleTask i) w = Some w' /\
              tasks (home w') = tasks (home w)).
Proof.
  assert (T : forall f v, tasks (home (setTasks f v)) = f (tasks (home v))).
  { intros f v; unfold setTasks, saveEffect; simpl.
    destruct (0 <? _)%nat; reflexivity. }
  split; [apply handleToggleTask_twice|]; split.
  - intros w1 w2 H1 H2; simpl in H1, H2.
    injection H1 as <-; injection H2 as <-.
    rewrite !T; apply handleToggleTask_twice.
  - intros H; eexists; split; [reflexivity|].
    rewrite T; apply handleToggleTask_absent, H.
Qed.

End StoreFacts.

(** ** Adding tasks *)

Module AddFacts.
Import Home.

Lemma tasks_setTasks (f : list Task -> list Task) (w : World) :
  tasks (home (setTasks f w)) = f (tasks (home w)).
Proof.
  unfold setTasks, saveEffect; simpl.
  destruct (0 <? _)%nat; reflexivity.
Qed.

Lemma handleSubmit_blank (form : NewTask) :
  QuickAddModal_handleSubmit form = None <->
  forallb isWhiteSpace (new_title form) = true.
Proof.
  unfold QuickAddModal_handleSubmit; rewrite <- trim_nil_iff.
  destruct (trim (new_title form)); simpl; split; congruence.
Qed.

Lemma step_add_accepted (form : NewTask) (now_id now_created : Z) (w w' : World) :
  step (SubmitAdd form now_id now_created) w = Some w' ->
  tasks (home w') =
  tasks (home w) ++
  [ {| id := toString now_id; title := new_title form; completed := false;
       priority := new_priority form; category := new_category form;
       dueDate := new_dueDate form; createdAt := now_created |} ].
Proof.
  simpl; destruct (QuickAddModal_handleSubmit form) as [d|] eqn:E; [|discriminate].
  intros [= <-]; rewrite tasks_setTasks; simpl.
  unfold QuickAddModal_handleSubmit in E.
  destruct (negb _); [discriminate|]; injection E as <-; reflexivity.
Qed.

(** C2, as the code has it.  A submit whose title is empty or all white
    space is refused and nothing is added.  Any other submit appends one
    task to the collection, with [completed = false], the form's fields,
    and the decimal digits of the clock reading as its id; the ids of the
    collection stay pairwise distinct provided no stored task already has
    those digits as its id; and the ids given by two submits in a row are
    equal exactly when the two clock readings are equal. *)
Theorem add_validates_and_appends
        (form : NewTask) (now_id now_created : Z) (w : World) :
  (forallb isWhiteSpace (new_title form) = true ->
   step (SubmitAdd form now_id now_created) w = None) /\
  (forallb isWhiteSpace (new_title form) = false ->
   exists w' t,
     step (SubmitAdd form now_id now_created) w = Some w' /\
     tasks (home w') = tasks (home w) ++ [t] /\
     In t (tasks (home w')) /\
     completed t = false /\ id t = toString now_id /\
     title t = new_title form /\ priority t = new_priority form /\
     category t = new_category form /\ dueDate t = new_dueDate form /\
     createdAt t = now_created /\
     (NoDup (map id (tasks (home w))) ->
      ~ In (toString now_id) (map id (tasks (home w))) ->
      NoDup (map id (tasks (home w'))))) /\
  (forall form2 now_id2 now_created2 w1 w2,
     step (SubmitAdd form now_id now_created) w = Some w1 ->
     step (SubmitAdd form2 now_id2 now_created2) w1 = Some w2 ->
     exists t1 t2,
       tasks (home w2) = tasks (home w) ++ [t1; t2] /\
       (id t1 = id t2 <-> now_id = now_id2)).
Proof.
  split; [|split].
  - intros H; apply handleSubmit_blank in H; simpl; rewrite H; reflexivity.
  - intros H.
    destruct (step (SubmitAdd form now_id now_created) w) as [w'|] eqn:E.
    + pose proof (step_add_accepted _ _ _ _ _ E) as T.
      eexists; eexists; split; [reflexivity|]; split; [exact T|].
      rewrite T; repeat split; simpl; auto.
      * apply in_or_app; right; left; reflexivity.
      * intros Hnd Hfresh; rewrite map_app; simpl.
        apply NoDup_app; repeat split; auto.
        -- constructor; [intros []|constructor].
        -- intros x Hx [<-|[]]; contradiction.
    + simpl in E.
      destruct (QuickAddModal_handleSubmit form) eqn:E'; [discriminate|].
      apply handleSubmit_blank in E'; congruence.
  - intros form2 now_id2 now_created2 w1 w2 H1 H2.
    apply step_add_accepted in H1, H2; rewrite H1 in H2.
    eexists; eexists; split.
    + rewrite H2, <- app_assoc; reflexivity.
    + simpl; split; [apply toString_inj | intros ->; reflexivity].
Qed.

End AddFacts.

(** ** Statistics *)

Module StatsFacts.
Import Home.

Lemma rate_zero_total (c : nat) : rate c 0 = 0%float.
Proof. reflexivity. Qed.

(** The overall rate of an empty collection is 0. *)
Lemma completionRate_empty : completionRate [] = 0%float.
Proof. reflexivity. Qed.

(** Four tasks, one of them completed: the overall rate is 25. *)
Lemma completionRate_one_of_four (tasks : list Task) :
  length tasks = 4%nat -> length (filter completed tasks) = 1%nat ->
  completionRate tasks = 25%float.
Proof. unfold completionRate; intros -> ->; reflexivity. Qed.

Section FixedOffset.
Variable offset : Z.

(** With an offset that never changes, the code's week start is the
    current instant moved back by the weekday index in whole days; the
    time of day is kept. *)
Lemma startOfWeek_eq (now : Z) :
  startOfWeek (fixedOffset offset) now =
  (now - getDay (fixedOffset offset) now * msPerDay)%Z.
Proof.
  unfold startOfWeek, addDate, UTC, MakeDate, Day, TimeWithinDay, LocalTime.
  generalize (getDay (fixedOffset offset) now); intros g; simpl.
  pose proof (Z.div_mod (now + offset) msPerDay) as H.
  assert (msPerDay <> 0%Z) by (unfold msPerDay; lia).
  specialize (H ltac:(assumption)); lia.
Qed.

(** It is later than the truncated week start by the local time of day. *)
Lemma startOfWeek_vs_spec (now : Z) :
  startOfWeek (fixedOffset offset) now =
  (startOfWeek_spec (fixedOffset offset) now
   + TimeWithinDay (LocalTime (fixedOffset offset) now))%Z.
Proof.
  unfold startOfWeek_spec, startOfWeek, setHours0, addDate, UTC, MakeDate, LocalTime.
  generalize (getDay (fixedOffset offset) now); intros g; simpl.
  set (L := (now + offset)%Z).
  replace ((Day L + - g) * msPerDay + TimeWithinDay L - offset + offset)%Z
    with ((Day L + - g) * msPerDay + TimeWithinDay L)%Z by lia.
  unfold Day at 2.
  rewrite Z.div_add_l by (unfold msPerDay; lia).
  unfold TimeWithinDay.
  rewrite (Z.div_small (L mod msPerDay))
    by (apply Z.mod_pos_bound; unfold msPerDay; lia).
  lia.
Qed.

End FixedOffset.

Section LocalZone.
Variable tz : TimeZone.

Lemma weeklyTasks_In (now : Z) (tasks : list Task) (t : Task) :
  In t (weeklyTasks tz now tasks) <->
  In t tasks /\ (createdAt t >= startOfWeek tz now)%Z.
Proof.
  unfold weeklyTasks; rewrite filter_In, Z.geb_le; intuition lia.
Qed.

(** With no task created since the week start, the weekly rate is 0. *)
Lemma weeklyRate_none (now : Z) (tasks : list Task) :
  weeklyTasks tz now tasks = [] -> weeklyRate tz now tasks = 0%float.
Proof. unfold weeklyRate; intros ->; reflexivity. Qed.

End LocalZone.

(** C4, at an input where the code leaves the claim.  On Sunday 7 January
    2024 at 15:00 UTC, with one completed task created at 10:00 that
    morning: the weekday index is 0, so the code's week start is the
    current instant itself, the task is not counted and the weekly rate
    is 0; the week start truncated to the start of the day is midnight,
    which counts the task and gives 100.  The overall rate is 100. *)
Theorem weekly_rate_week_start_not_truncated :
  let now := Examples.sunday_3pm in
  let t := Examples.doneThisMorning in
  getDay utc now = 0%Z /\
  startOfWeek utc now = now /\
  startOfWeek_spec utc now = 1704585600000%Z /\
  weeklyTasks utc now [t] = [] /\
  weeklyRate utc now [t] = 0%float /\
  weeklyRate_spec utc now [t] = 100%float /\
  completionRate [t] = 100%float.
Proof. vm_compute; repeat split; reflexivity. Qed.

End StatsFacts.

(** ** The category filter *)

Module FilterFacts.
Import Home.

Lemma getFilteredTasks_filter (tz : TimeZone) (now : Z) (tasks : list Task) (v : View)
      (c : jsstring) :
  c <> [] ->
  getFilteredTasks tz now tasks v (Some c) =
  filter (fun t => str_eqb (category t) c) (getFilteredTasks tz now tasks v None).
Proof. destruct c; [congruence | reflexivity]. Qed.

Lemma handleCategoryClick_active (c : jsstring) :
  handleCategoryClick (Some c) c = None.
Proof. simpl; rewrite str_eqb_refl; reflexivity. Qed.

Lemma handleCategoryClick_other (a : option jsstring) (c : jsstring) :
  a <> Some c -> handleCategoryClick a c = Some c.
Proof.
  destruct a as [a|]; simpl; [|reflexivity].
  destruct (str_eqb a c) eqn:E; [|reflexivity].
  apply str_eqb_eq in E; congruence.
Qed.

(** C7.  With a category [c] selected, the Today view is the collection
    filtered by "truncated due date equals truncated current date" and
    then by "category equals [c]", and the Upcoming view the same with
    "strictly later": a task is shown exactly when it is stored, the date
    filter keeps it and its category is [c]; the cards rendered in these
    two views are the open and the completed tasks of that list.  Put
    otherwise, each of the two views is its unfiltered view restricted to
    category [c].  What is rendered in the Lists and Statistics views
    does not depend on the filter and is computed from the whole
    collection.  A click on a category that the list shows as selected
    clears the filter; so a click that selects [c] followed by a second
    click on [c] leaves no filter. *)
Theorem category_filter (tz : TimeZone) (now : Z) (w : World) (c : jsstring) :
  c <> [] ->
  (getFilteredTasks tz now (tasks (home w)) today (Some c) =
     filter (fun t => str_eqb (category t) c)
       (filter (fun t => setHours0 tz (dueDate t) =? setHours0 tz now)%Z
               (tasks (home w))) /\
   getFilteredTasks tz now (tasks (home w)) upcoming (Some c) =
     filter (fun t => str_eqb (category t) c)
       (filter (fun t => setHours0 tz (dueDate t) >? setHours0 tz now)%Z
               (tasks (home w))) /\
   (forall t,
      In t (getFilteredTasks tz now (tasks (home w)) today (Some c)) <->
      In t (tasks (home w)) /\
      setHours0 tz (dueDate t) = setHours0 tz now /\ category t = c) /\
   (forall t,
      In t (getFilteredTasks tz now (tasks (home w)) upcoming (Some c)) <->
      In t (tasks (home w)) /\
      (setHours0 tz (dueDate t) > setHours0 tz now)%Z /\ category t = c) /\
   (forall v, v = today \/ v = upcoming ->
      activeView (home w) = v -> categoryFilter (home w) = Some c ->
      render tz now w =
      TaskCards
        (filter (fun t => negb (completed t))
                (getFilteredTasks tz now (tasks (home w)) v (Some c)))
        (filter completed
                (getFilteredTasks tz now (tasks (home w)) v (Some c))))) /\
  (forall v, v = today \/ v = upcoming ->
     getFilteredTasks tz now (tasks (home w)) v (Some c) =
     filter (fun t => str_eqb (category t) c)
            (getFilteredTasks tz now (tasks (home w)) v None) /\
     forall t, In t (getFilteredTasks tz now (tasks (home w)) v (Some c)) <->
               In t (getFilteredTasks tz now (tasks (home w)) v None) /\
               category t = c) /\
  (forall cf,
     (activeView (home w) = lists ->
      render tz now (with_home (with_filter cf) w) =
      ListsScreen (categoryCounts (tasks (home w))) (activeCategory w)) /\
     (activeView (home w) = stats ->
      render tz now (with_home (with_filter cf) w) =
      StatsScreen (StatsView tz now (tasks (home w))))) /\
  (forall w1 w2,
     step (CategoryClick c) w = Some w1 ->
     step (CategoryClick c) w1 = Some w2 ->
     (activeCategory w = Some c -> categoryFilter (home w1) = None) /\
     (activeCategory w <> Some c ->
      categoryFilter (home w1) = Some c /\ categoryFilter (home w2) = None)).
Proof.
  intros Hc; split; [|split; [|split]].
  - assert (T : getFilteredTasks tz now (tasks (home w)) today (Some c) =
                filter (fun t => str_eqb (category t) c)
                  (filter (fun t => setHours0 tz (dueDate t) =? setHours0 tz now)%Z
                          (tasks (home w))))
      by (destruct c; [congruence | reflexivity]).
    assert (U : getFilteredTasks tz now (tasks (home w)) upcoming (Some c) =
                filter (fun t => str_eqb (category t) c)
                  (filter (fun t => setHours0 tz (dueDate t) >? setHours0 tz now)%Z
                          (tasks (home w))))
      by (destruct c; [congruence | reflexivity]).
    split; [exact T|]; split; [exact U|]; split; [|split].
    + intros t; rewrite T, !filter_In, str_eqb_eq, Z.eqb_eq; tauto.
    + intros t; rewrite U, !filter_In, str_eqb_eq, Z.gtb_gt; tauto.
    + intros v [-> | ->] Hv Hf; unfold render; rewrite Hv, Hf; reflexivity.
  - intros v _; split; [apply getFilteredTasks_filter, Hc|].
    intros t; rewrite getFilteredTasks_filter by exact Hc.
    rewrite filter_In, str_eqb_eq; reflexivity.
  - intros cf; split; intros Hv; unfold render; simpl; rewrite Hv; reflexivity.
  - intros w1 w2 H1 H2; simpl in H1; injection H1 as <-.
    simpl in H2; injection H2 as <-; simpl.
    split.
    + intros ->; apply handleCategoryClick_active.
    + intros Hn; rewrite (handleCategoryClick_other _ _ Hn).
      split; [reflexivity | apply handleCategoryClick_active].
Qed.

End FilterFacts.

(** ** Saving to localStorage *)

Module SaveFacts.
Import Home.

Lemma loadEffect_saved (clock : nat -> Z) (saved : list Task) :
  loadEffect clock (Some saved) = saved.
Proof.
  simpl; rewrite <- (map_id saved) at 2.
  apply map_ext; intros []; reflexivity.
Qed.

Lemma saveEffect_nonempty (w : World) :
  tasks (home w) <> [] ->
  saveEffect w =
  {| home := home w; activeCategory := activeCategory w;
     localStorage := Some (tasks (home w));
     setItemCalls := setItemCalls w ++ [tasks (home w)] |}.
Proof.
  unfold saveEffect; destruct (tasks (home w)); [congruence | reflexivity].
Qed.

Lemma saveEffect_empty (w : World) : tasks (home w) = [] -> saveEffect w = w.
Proof. unfold saveEffect; intros ->; reflexivity. Qed.

Lemma setTasks_nonempty (f : list Task -> list Task) (w : World) :
  f (tasks (home w)) <> [] ->
  tasks (home (setTasks f w)) = f (tasks (home w)) /\
  localStorage (setTasks f w) = Some (f (tasks (home w))) /\
  setItemCalls (setTasks f w) = setItemCalls w ++ [f (tasks (home w))].
Proof.
  intros H; unfold setTasks; rewrite saveEffect_nonempty by exact H.
  repeat split.
Qed.

Lemma setTasks_empty (f : list Task -> list Task) (w : World) :
  f (tasks (home w)) = [] ->
  tasks (home (setTasks f w)) = [] /\
  localStorage (setTasks f w) = localStorage w /\
  setItemCalls (setTasks f w) = setItemCalls w.
Proof.
  intros H; unfold setTasks; rewrite saveEffect_empty by exact H.
  simpl; auto.
Qed.

(** An event that is no add, toggle or delete leaves the collection and
    the stored item alone. *)
Lemma step_other (e : Event) (w w' : World) :
  mutation e = false -> step e w = Some w' ->
  tasks (home w') = tasks (home w) /\
  localStorage w' = localStorage w /\ setItemCalls w' = setItemCalls w.
Proof.
  destruct e; simpl; try discriminate; intros _ [= <-]; repeat split.
Qed.

(** An add, toggle or delete is one [setTasks]. *)
Lemma step_mutation (e : Event) (w w' : World) :
  mutation e = true -> step e w = Some w' ->
  exists f w0, w' = setTasks f w0 /\ tasks (home w0) = tasks (home w) /\
               localStorage w0 = localStorage w /\
               setItemCalls w0 = setItemCalls w.
Proof.
  destruct e; simpl; try discriminate; intros _.
  - destruct (QuickAddModal_handleSubmit form); [|discriminate].
    intros [= <-]; eexists; eexists; split; [reflexivity|]; repeat split.
  - intros [= <-]; eexists; eexists; split; [reflexivity|]; repeat split.
  - intros [= <-]; eexists; eexists; split; [reflexivity|]; repeat split.
Qed.

(** The save effect of the first render does nothing: mounting comes
    down to the one [setTasks] of the load effect. *)
Lemma mount_eq (clock : nat -> Z) (stored : option (list Task)) :
  mount clock stored =
  setTasks (fun _ => loadEffect clock stored)
           {| home := initialState; activeCategory := None;
              localStorage := stored; setItemCalls := [] |}.
Proof. reflexivity. Qed.

Lemma mount_tasks (clock : nat -> Z) (stored : option (list Task)) :
  tasks (home (mount clock stored)) = loadEffect clock stored.
Proof. unfold mount; rewrite AddFacts.tasks_setTasks; reflexivity. Qed.

(** Splits on the [setTasks] in the goal, given that its result is not
    empty ([setTasks_saves H]) or is empty ([setTasks_skips H]), where [H]
    speaks of the tasks of the resulting world. *)
Ltac setTasks_saves H :=
  match goal with
  | |- context [setTasks ?f ?v] =>
      let T := fresh "T" in let L := fresh "L" in let C := fresh "C" in
      destruct (setTasks_nonempty f v) as (T & L & C);
      [ rewrite <- (AddFacts.tasks_setTasks f v); exact H
      | rewrite ?T, ?L, ?C ]
  end.

Ltac setTasks_skips H :=
  match goal with
  | |- context [setTasks ?f ?v] =>
      let T := fresh "T" in let L := fresh "L" in let C := fresh "C" in
      destruct (setTasks_empty f v) as (T & L & C);
      [ rewrite <- (AddFacts.tasks_setTasks f v); exact H
      | rewrite ?T, ?L, ?C ]
  end.

(** Whenever the collection is not empty, the stored item is a copy of it. *)
Lemma stored_copy (w : World) :
  reachable w -> tasks (home w) <> [] -> localStorage w = Some (tasks (home w)).
Proof.
  induction 1 as [clock stored | e w w' Hr IH Hs]; intros Hne.
  - rewrite mount_eq in *; setTasks_saves Hne; reflexivity.
  - destruct (mutation e) eqn:M.
    + destruct (step_mutation _ _ _ M Hs) as (f & w0 & -> & _).
      setTasks_saves Hne; reflexivity.
    + destruct (step_other _ _ _ M Hs) as (T & L & _).
      rewrite L, T; apply IH; rewrite <- T; exact Hne.
Qed.

(** C8, as the code has it.  Mounting the page on a stored collection
    that is not empty shows that collection and writes it back at once:
    the log holds exactly one write, made before any event.  On a first
    run the sample tasks are written the same way.  After that, every
    add, toggle or delete whose result is not empty writes the whole
    resulting collection, once; no other event writes. *)
Theorem save_after_load_and_after_mutations :
  (forall clock stored,
     stored <> [] ->
     tasks (home (mount clock (Some stored))) = stored /\
     localStorage (mount clock (Some stored)) = Some stored /\
     setItemCalls (mount clock (Some stored)) = [stored]) /\
  (forall clock,
     tasks (home (mount clock None)) = sampleTasks clock /\
     setItemCalls (mount clock None) = [sampleTasks clock]) /\
  (forall e w w',
     mutation e = true -> step e w = Some w' -> tasks (home w') <> [] ->
     localStorage w' = Some (tasks (home w')) /\
     setItemCalls w' = setItemCalls w ++ [tasks (home w')]) /\
  (forall e w w',
     mutation e = false -> step e w = Some w' ->
     tasks (home w') = tasks (home w) /\
     localStorage w' = localStorage w /\ setItemCalls w' = setItemCalls w).
Proof.
  split; [|split; [|split]].
  - intros clock stored Hne.
    rewrite <- (loadEffect_saved clock stored) in Hne at 1.
    rewrite <- mount_tasks in Hne.
    rewrite mount_eq in *; setTasks_saves Hne.
    rewrite loadEffect_saved; repeat split.
  - intros clock; split; reflexivity.
  - intros e w w' M Hs Hne.
    destruct (step_mutation _ _ _ M Hs) as (f & w0 & -> & T0 & L0 & C0).
    setTasks_saves Hne; rewrite C0; split; reflexivity.
  - intros e w w'; apply step_other.
Qed.

(** C10.  The save effect does nothing on an empty collection: mounting
    on a stored empty array writes nothing, and no event whose result is
    the empty collection changes the stored item or adds a write.  In
    particular, once the page is running, deleting the only task left
    empties the collection in memory while the stored item still is the
    collection that held that task. *)
Theorem empty_collection_is_never_saved :
  (forall w, tasks (home w) = [] -> saveEffect w = w) /\
  (forall clock stored,
     tasks (home (mount clock stored)) = [] ->
     localStorage (mount clock stored) = stored /\
     setItemCalls (mount clock stored) = []) /\
  (forall e w w',
     step e w = Some w' -> tasks (home w') = [] ->
     localStorage w' = localStorage w /\ setItemCalls w' = setItemCalls w) /\
  (forall w t,
     reachable w -> tasks (home w) = [t] ->
     exists w',
       step (DeleteTask (id t)) w = Some w' /\
       tasks (home w') = [] /\
       localStorage w' = Some [t] /\
       setItemCalls w' = setItemCalls w).
Proof.
  split; [exact saveEffect_empty|]; split; [|split].
  - intros clock stored He.
    rewrite mount_eq in *; setTasks_skips He; split; reflexivity.
  - intros e w w' Hs He.
    destruct (mutation e) eqn:M.
    + destruct (step_mutation _ _ _ M Hs) as (f & w0 & -> & T0 & L0 & C0).
      setTasks_skips He; rewrite L0, C0; split; reflexivity.
    + destruct (step_other _ _ _ M Hs) as (_ & L & C); split; assumption.
  - intros w t Hr Ht.
    assert (Hd : handleDeleteTask (id t) (tasks (home w)) = []).
    { rewrite Ht; unfold handleDeleteTask; simpl.
      rewrite str_eqb_refl; reflexivity. }
    eexists; split; [reflexivity|].
    destruct (setTasks_empty (handleDeleteTask (id t)) w Hd) as (T & L & C).
    rewrite T, L, C; repeat split.
    rewrite <- Ht; apply stored_copy; [exact Hr | rewrite Ht; discriminate].
Qed.

End SaveFacts.

(** ** The assistant session *)

Module ChatFacts.
Import AIChat.

Lemma replyMessage_type (awaited : Settlement) (clock : nat -> Z) :
  type (replyMessage awaited clock) = assistant.
Proof.
  unfold replyMessage, tryBlock.
  destruct awaited as [res|]; simpl; [|reflexivity].
  destruct (success res && _); simpl; [|reflexivity].
  destruct (result (response res)); reflexivity.
Qed.

Lemma countRole_app (r : Role) (l1 l2 : list ChatMessage) :
  countRole r (l1 ++ l2) = (countRole r l1 + countRole r l2)%nat.
Proof. unfold countRole; rewrite filter_app, length_app; reflexivity. Qed.

(** C3.  Once a message has been accepted for sending, the log is the old
    log followed by the user's message; when the request settles, in
    whichever way, exactly one message is appended to that log and it is
    an assistant message, so the number of assistant messages grows by
    one.  After a success payload it carries the answer, the tips, the
    priority suggestions and the related topics of the result; after a
    payload that is not a success its content is the supplied message, or
    the fixed apology when none (or an empty one) is supplied, with no
    tips, suggestions or topics; after a rejected promise its content is
    the fixed network-error text. *)
Theorem one_assistant_turn_per_request
        (w : World) (text : jsstring) (now_id now_ts : Z)
        (awaited : Settlement) (clock : nat -> Z) :
  let w1 := handleSendMessage text now_id now_ts w in
  let w2 := settle awaited clock w1 in
  let reply := replyMessage awaited clock in
  messages (ui w1) = messages (ui w) ++ [userMessage text now_id now_ts] /\
  requests w1 = requests w ++ [(text, AGENT_ID)] /\
  messages (ui w2) = messages (ui w1) ++ [reply] /\
  type reply = assistant /\
  countRole assistant (messages (ui w2)) =
    S (countRole assistant (messages (ui w))) /\
  countRole user (messages (ui w2)) = S (countRole user (messages (ui w))) /\
  loading (ui w2) = false /\
  (forall data msg,
     awaited = Fulfilled (successPayload data msg) ->
     content reply = answer data /\
     tips reply = Some (result_tips data) /\
     prioritySuggestions reply = Some (priority_suggestions data) /\
     relatedTopics reply = Some (related_topics data)) /\
  (forall res,
     awaited = Fulfilled res ->
     success res && str_eqb (status (response res)) (lit "success") = false ->
     content reply =
       match message (response res) with
       | Some (c :: m) => c :: m
       | _ => lit "Sorry, I encountered an error. Please try again."
       end /\
     tips reply = None /\ prioritySuggestions reply = None /\
     relatedTopics reply = None) /\
  (awaited = RejectedPromise ->
   content reply =
     lit "Network error. Please check your connection and try again." /\
   tips reply = None /\ prioritySuggestions reply = None /\
   relatedTopics reply = None).
Proof.
  cbv zeta.
  split; [reflexivity|]; split; [reflexivity|]; split; [reflexivity|].
  split; [apply replyMessage_type|].
  pose proof (replyMessage_type awaited clock) as Ht.
  split; [|split; [|split; [reflexivity|]]].
  - simpl; rewrite !countRole_app; unfold countRole at 2 3; simpl.
    rewrite Ht; simpl; lia.
  - simpl; rewrite !countRole_app; unfold countRole at 2 3; simpl.
    rewrite Ht; simpl; lia.
  - split; [|split].
    + intros data msg ->; repeat split.
    + intros res -> Hs; unfold replyMessage, tryBlock; simpl; rewrite Hs; simpl.
      destruct (message (response res)) as [[|c m]|]; repeat split.
    + intros ->; repeat split.
Qed.

(** A success status without a result: reading [data.answer] throws, the
    [catch] block runs, and still one assistant message is appended. *)
Lemma reply_to_success_without_result (msg : option jsstring) (clock : nat -> Z) :
  replyMessage
    (Fulfilled {| success := true;
                  response := {| status := lit "success"; result := None;
                                 message := msg |} |}) clock =
  catchBlock TypeError clock.
Proof. reflexivity. Qed.

(** While a reply is awaited the log is not empty, and at most one call
    is outstanding. *)
Lemma loading_invariant (w : World) :
  reachable w ->
  (loading (ui w) = true -> messages (ui w) <> []) /\
  inflight w = (if loading (ui w) then 1 else 0)%nat.
Proof.
  induction 1 as [|e w Hr [IHm IHi] Ha]; [split; [discriminate | reflexivity]|].
  destruct e as [s | n1 n2 | k n1 n2 | awaited clock]; simpl in *.
  - split; assumption.
  - unfold handleSubmit.
    destruct (negb (truthy (trim (input (ui w)))) || loading (ui w)) eqn:G;
      [split; assumption|].
    apply orb_false_iff in G; destruct G as [_ G]; rewrite G in IHi.
    simpl; rewrite IHi; split; [intros _ | reflexivity].
    destruct (messages (ui w)); discriminate.
  - apply andb_true_iff in Ha; destruct Ha as [Ha _].
    apply Nat.eqb_eq in Ha.
    destruct (loading (ui w)).
    + destruct (messages (ui w)); [exfalso; apply IHm; reflexivity | discriminate].
    + rewrite IHi; split; [intros _ | reflexivity].
      destruct (messages (ui w)); discriminate.
  - split; [discriminate|].
    apply Nat.ltb_lt in Ha.
    destruct (loading (ui w)); rewrite IHi in *; [reflexivity | lia].
Qed.

(** C6.  In every state in which a reply is awaited, whatever the input
    field holds, a submit of the form returns early: the state stays as
    it is, so the log keeps its length, no call to the assistant is made
    and none is counted as outstanding.  The only other way to send, a
    suggestion button, is not on the page in any such state the dialog
    can reach, since the log is then not empty; hence there whatever
    event asks for a message to be sent leaves the whole state as it
    is. *)
Theorem send_while_awaiting_is_ignored (w : World) :
  loading (ui w) = true ->
  (forall now_id now_ts,
     handleSubmit now_id now_ts w = None /\
     run (SubmitForm now_id now_ts) w = w /\
     length (messages (ui (run (SubmitForm now_id now_ts) w))) =
       length (messages (ui w)) /\
     requests (run (SubmitForm now_id now_ts) w) = requests w /\
     inflight (run (SubmitForm now_id now_ts) w) = inflight w) /\
  (reachable w ->
   messages (ui w) <> [] /\
   (forall k now_id now_ts,
      available (SuggestionClick k now_id now_ts) w = false) /\
   (forall e, sendIntent e = true -> available e w = true ->
              run e w = w /\
              length (messages (ui (run e w))) = length (messages (ui w)) /\
              requests (run e w) = requests w /\
              inflight (run e w) = inflight w)).
Proof.
  intros Hl.
  assert (S1 : forall n1 n2, handleSubmit n1 n2 w = None).
  { intros; unfold handleSubmit; rewrite Hl, orb_true_r; reflexivity. }
  assert (R1 : forall n1 n2, run (SubmitForm n1 n2) w = w)
    by (intros; simpl; rewrite S1; reflexivity).
  split.
  - intros n1 n2; rewrite R1; repeat split; apply S1.
  - intros Hr.
    destruct (loading_invariant w Hr) as [Hm _]; specialize (Hm Hl).
    assert (S2 : forall k n1 n2, available (SuggestionClick k n1 n2) w = false).
    { intros; simpl. destruct (messages (ui w)); [congruence | reflexivity]. }
    split; [exact Hm|]; split; [exact S2|].
    intros e He Ha.
    assert (R : run e w = w).
    { destruct e; simpl in He; try discriminate.
      - apply R1.
      - rewrite S2 in Ha; discriminate. }
    rewrite R; repeat split.
Qed.

End ChatFacts.

(** ** The theorems at concrete inputs *)

Module Instances.
Import Examples.

(** C1 in New York on Sunday 3 November 2024 at 10:00 EST, the day the
    clocks go back: the task due at the midnight that began the day and
    the one due at 23:30 that evening are in Today and not in Upcoming,
    the one due at 00:30 on Monday is in Upcoming and not in Today, the
    one due at 23:30 on Saturday is in neither. *)
Lemma today_upcoming_membership_witness :
  Home.getFilteredTasks new_york_2024 nov3_10am fallBackStore Home.today None
    = [atMidnight; lateEvening] /\
  (In atMidnight
      (Home.getFilteredTasks new_york_2024 nov3_10am fallBackStore Home.today None) /\
   ~ In atMidnight
      (Home.getFilteredTasks new_york_2024 nov3_10am fallBackStore Home.upcoming None)) /\
  (In nextDay
      (Home.getFilteredTasks new_york_2024 nov3_10am fallBackStore Home.upcoming None) /\
   ~ In nextDay
      (Home.getFilteredTasks new_york_2024 nov3_10am fallBackStore Home.today None)) /\
  (~ In eveningBefore
      (Home.getFilteredTasks new_york_2024 nov3_10am fallBackStore Home.today None) /\
   ~ In eveningBefore
      (Home.getFilteredTasks new_york_2024 nov3_10am fallBackStore Home.upcoming None)).
Proof.
  destruct (ViewFacts.today_upcoming_membership
              new_york_2024 nov3_10am fallBackStore atMidnight)
    as (_ & _ & A & _ & _).
  destruct (ViewFacts.today_upcoming_membership
              new_york_2024 nov3_10am fallBackStore nextDay)
    as (_ & _ & _ & B & _).
  destruct (ViewFacts.today_upcoming_membership
              new_york_2024 nov3_10am fallBackStore eveningBefore)
    as (_ & _ & _ & _ & C).
  destruct A as [A1 A2]; [left; reflexivity | vm_compute; reflexivity |].
  destruct (B ZoneFacts.new_york_midnights_in_order) as [B1 B2];
    [right; right; left; reflexivity | vm_compute; reflexivity |].
  pose proof (C ZoneFacts.new_york_midnights_in_order
                (or_intror (or_intror (or_intror (or_introl eq_refl))))
                eq_refl None) as C'.
  split; [vm_compute; reflexivity|].
  split; [split; [exact A1 | exact (A2 None)] |].
  split; [split; [exact B1 | exact (B2 None)] | exact C'].
Defined.

(** C2: a title of three spaces is refused; "Buy milk" is appended with
    [completed = false] and the clock reading as its id. *)
Lemma add_validates_and_appends_witness :
  Home.step (Home.SubmitAdd (form "   ") sunday_3pm sunday_3pm)
            (Home.mount clock None) = None /\
  exists w' t,
    Home.step (Home.SubmitAdd (form "Buy milk") sunday_3pm sunday_3pm)
              (Home.mount clock None) = Some w' /\
    Home.tasks (Home.home w') = Home.sampleTasks clock ++ [t] /\
    Home.completed t = false /\ Home.id t = lit "1704639600000".
Proof.
  split.
  - apply (AddFacts.add_validates_and_appends
             (form "   ") sunday_3pm sunday_3pm (Home.mount clock None));
      reflexivity.
  - destruct (AddFacts.add_validates_and_appends
                (form "Buy milk") sunday_3pm sunday_3pm (Home.mount clock None))
      as (_ & A & _).
    destruct (A eq_refl) as (w' & t & H1 & H2 & _ & H3 & H4 & _).
    exists w', t; repeat split; assumption.
Defined.

(** C2 as stated fails: two forms submitted at the same clock reading
    give two tasks with the same id. *)
Lemma add_same_clock_reading_same_id :
  let w2 := Home.run (Home.SubmitAdd (form "Call the bank") sunday_3pm sunday_3pm)
              (Home.run (Home.SubmitAdd (form "Buy milk") sunday_3pm sunday_3pm)
                 (Home.mount clock (Some []))) in
  map Home.title (Home.tasks (Home.home w2)) = [lit "Buy milk"; lit "Call the bank"] /\
  map Home.id (Home.tasks (Home.home w2)) =
    [lit "1704639600000"; lit "1704639600000"] /\
  ~ NoDup (map Home.id (Home.tasks (Home.home w2))).
Proof.
  cbv zeta; split; [reflexivity|]; split; [reflexivity|].
  intros H; inversion H as [|x l Hin _]; apply Hin; left; reflexivity.
Qed.

(** C3, the scenario of the specification: the reply to "Prioritize my
    tasks" shows the answer and the tips of the payload; a soft error
    shows the supplied message; a rejected promise shows the network
    text. *)
Lemma one_assistant_turn_per_request_witness :
  AIChat.content (AIChat.replyMessage
                    (AIChat.Fulfilled (AIChat.successPayload advice None)) clock)
    = lit "Focus on high priority" /\
  AIChat.tips (AIChat.replyMessage
                 (AIChat.Fulfilled (AIChat.successPayload advice None)) clock)
    = Some [lit "Do urgent first"] /\
  AIChat.content (AIChat.replyMessage (AIChat.Fulfilled softError) clock)
    = lit "Quota exceeded" /\
  AIChat.content (AIChat.replyMessage AIChat.RejectedPromise clock)
    = lit "Network error. Please check your connection and try again.".
Proof.
  destruct (ChatFacts.one_assistant_turn_per_request
              AIChat.initial (lit "Prioritize my tasks") sunday_3pm sunday_3pm
              (AIChat.Fulfilled (AIChat.successPayload advice None)) clock)
    as (_ & _ & _ & _ & _ & _ & _ & A & _ & _).
  destruct (ChatFacts.one_assistant_turn_per_request
              AIChat.initial (lit "Prioritize my tasks") sunday_3pm sunday_3pm
              (AIChat.Fulfilled softError) clock)
    as (_ & _ & _ & _ & _ & _ & _ & _ & B & _).
  destruct (ChatFacts.one_assistant_turn_per_request
              AIChat.initial (lit "Prioritize my tasks") sunday_3pm sunday_3pm
              AIChat.RejectedPromise clock)
    as (_ & _ & _ & _ & _ & _ & _ & _ & _ & C).
  destruct (A advice None eq_refl) as (A1 & A2 & _).
  destruct (B softError eq_refl eq_refl) as (B1 & _).
  destruct (C eq_refl) as (C1 & _).
  repeat split; assumption.
Defined.

(** C5: no sample task has the id "404"; toggling it is accepted and the
    collection stays as it is. *)
Lemma toggle_twice_and_absent_witness :
  exists w',
    Home.step (Home.ToggleTask (lit "404")) (Home.mount clock None) = Some w' /\
    Home.tasks (Home.home w') = Home.tasks (Home.home (Home.mount clock None)).
Proof.
  destruct (StoreFacts.toggle_twice_and_absent (lit "404") (Home.mount clock None))
    as (_ & _ & A).
  apply A.
  intros t [<-|[<-|[<-|[]]]]; discriminate.
Defined.

(** C5 as stated fails: toggling the absent id "404" is not refused; the
    handler sets the state and the collection is saved once more. *)
Lemma toggle_absent_id_is_not_refused :
  existsb (fun t => str_eqb (Home.id t) (lit "404"))
          (Home.tasks (Home.home (Home.mount clock None))) = false /\
  Home.step (Home.ToggleTask (lit "404")) (Home.mount clock None) <> None /\
  Home.setItemCalls (Home.run (Home.ToggleTask (lit "404")) (Home.mount clock None))
    = [Home.sampleTasks clock; Home.sampleTasks clock].
Proof. split; [reflexivity|]; split; [discriminate | reflexivity]. Qed.

(** C6: a reply is awaited and the input field holds a text; a submit
    of the form returns early and changes nothing.  After a click on the
    first suggestion the same holds in a state the dialog reaches. *)
Lemma send_while_awaiting_is_ignored_witness :
  (AIChat.loading (AIChat.ui busyWithDraft) = true /\
   truthy (trim (AIChat.input (AIChat.ui busyWithDraft))) = true /\
   AIChat.handleSubmit monday_9am monday_9am busyWithDraft = None /\
   AIChat.run (AIChat.SubmitForm monday_9am monday_9am) busyWithDraft
     = busyWithDraft) /\
  let w := AIChat.run (AIChat.SuggestionClick 0 sunday_3pm sunday_3pm)
                      AIChat.initial in
  AIChat.reachable w /\ AIChat.loading (AIChat.ui w) = true /\
  AIChat.run (AIChat.SubmitForm monday_9am monday_9am) w = w.
Proof.
  split.
  - destruct (ChatFacts.send_while_awaiting_is_ignored busyWithDraft eq_refl)
      as (A & _).
    destruct (A monday_9am monday_9am) as (A1 & A2 & _).
    split; [reflexivity|]; split; [reflexivity|]; split; [exact A1 | exact A2].
  - cbv zeta.
    pose (R := AIChat.reach_run (AIChat.SuggestionClick 0 sunday_3pm sunday_3pm)
                 AIChat.initial AIChat.reach_initial eq_refl).
    split; [exact R|]; split; [reflexivity|].
    destruct (ChatFacts.send_while_awaiting_is_ignored
                (AIChat.run (AIChat.SuggestionClick 0 sunday_3pm sunday_3pm)
                            AIChat.initial) eq_refl) as (_ & B).
    destruct (B R) as (_ & _ & B3).
    apply (B3 (AIChat.SubmitForm monday_9am monday_9am)); reflexivity.
Defined.

(** C7 in New York on 3 November 2024 at 10:00 EST: of the two tasks
    due that day only the one of category "Work" is shown when "Work" is
    selected. *)
Lemma category_filter_witness :
  lit "Work" <> [] /\
  Home.getFilteredTasks new_york_2024 nov3_10am fallBackStore Home.today
                        (Some (lit "Work")) = [atMidnight] /\
  Home.getFilteredTasks new_york_2024 nov3_10am fallBackStore Home.upcoming
                        (Some (lit "Work")) = [nextDay].
Proof.
  assert (H : lit "Work" <> []) by discriminate.
  split; [exact H|].
  destruct (FilterFacts.category_filter new_york_2024 nov3_10am
              (Home.mount clock (Some fallBackStore)) (lit "Work") H)
    as ((T & U & _) & _).
  split.
  - etransitivity; [exact T | vm_compute; reflexivity].
  - etransitivity; [exact U | vm_compute; reflexivity].
Defined.

(** C8: mounting on the stored sample store writes it back once. *)
Lemma save_after_load_and_after_mutations_witness :
  store <> [] /\
  Home.setItemCalls (Home.mount clock (Some store)) = [store].
Proof.
  assert (H : store <> []) by discriminate.
  split; [exact H|].
  destruct SaveFacts.save_after_load_and_after_mutations as (A & _).
  apply (A clock store H).
Defined.

(** C8 as stated fails: a stored collection of one task is loaded, and a
    write has been made although no event has happened yet. *)
Lemma load_is_followed_by_a_write :
  Home.tasks (Home.home (Home.mount clock (Some [dueToday]))) = [dueToday] /\
  Home.setItemCalls (Home.mount clock (Some [dueToday])) = [[dueToday]] /\
  Home.setItemCalls (Home.mount clock (Some [dueToday])) <> [].
Proof. split; [reflexivity|]; split; [reflexivity | discriminate]. Qed.

(** C9: toggling "11" in the sample store completes the first task and
    leaves the second as it is. *)
Lemma toggle_frame_witness :
  (exists t', nth_error (Home.handleToggleTask (lit "11") store) 0 = Some t' /\
              Home.completed t' = true /\ Home.title t' = Home.title dueToday) /\
  nth_error (Home.handleToggleTask (lit "11") store) 1 = Some dueTomorrow.
Proof.
  destruct (StoreFacts.toggle_frame (lit "11") store) as (_ & A).
  destruct (A 0%nat dueToday eq_refl) as (t0 & H0 & _ & Ht & _ & _ & _ & _ & Hc & _).
  destruct (A 1%nat dueTomorrow eq_refl) as (t1 & H1 & _ & _ & _ & _ & _ & _ & _ & Hn).
  split.
  - exists t0; repeat split; [exact H0 | apply Hc; reflexivity | exact Ht].
  - rewrite H1, Hn; [reflexivity | discriminate].
Defined.

(** C10: with one task loaded, deleting it empties the collection and
    the stored item still holds the task. *)
Lemma empty_collection_is_never_saved_witness :
  exists w',
    Home.step (Home.DeleteTask (lit "11")) (Home.mount clock (Some [dueToday]))
      = Some w' /\
    Home.tasks (Home.home w') = [] /\
    Home.localStorage w' = Some [dueToday] /\
    Home.setItemCalls w' = [[dueToday]].
Proof.
  destruct SaveFacts.empty_collection_is_never_saved as (_ & _ & _ & A).
  destruct (A (Home.mount clock (Some [dueToday])) dueToday
              (Home.reach_mount clock (Some [dueToday])) eq_refl)
    as (w' & H1 & H2 & H3 & H4).
  exists w'; repeat split; assumption.
Defined.

End Instances.

(** ** Calendar days, labels and the week start *)

Module DateFacts.
Import Home.

Section LocalZone.
Variable tz : TimeZone.

(** Moving the date by [k] days moves the local calendar day by [k]. *)
Lemma localDay_addDate (t k : Z) :
  keeps_the_day tz -> localDay tz (addDate tz t k) = (localDay tz t + k)%Z.
Proof.
  intros K; unfold localDay at 1, addDate; rewrite K.
  apply ZoneFacts.Day_window.
  unfold MakeDate, TimeWithinDay, localDay.
  pose proof (Z.mod_pos_bound (LocalTime tz t) msPerDay) as B.
  unfold msPerDay in *; lia.
Qed.

(** X1.  In a time zone whose successive local midnights are successive
    instants, and with no category selected, a stored task is shown in
    Today exactly when its due date falls on the local calendar day of
    the current instant, in Upcoming exactly when it falls on a later
    calendar day, and in neither exactly when it falls on an earlier one.
    It is never in both. *)
Theorem views_split_by_calendar_day (now : Z) (tasks : list Task) (t : Task) :
  midnights_in_order tz -> In t tasks ->
  (In t (getFilteredTasks tz now tasks today None) <->
     localDay tz (dueDate t) = localDay tz now) /\
  (In t (getFilteredTasks tz now tasks upcoming None) <->
     (localDay tz (dueDate t) > localDay tz now)%Z) /\
  (~ In t (getFilteredTasks tz now tasks today None) /\
   ~ In t (getFilteredTasks tz now tasks upcoming None) <->
     (localDay tz (dueDate t) < localDay tz now)%Z) /\
  ~ (In t (getFilteredTasks tz now tasks today None) /\
     In t (getFilteredTasks tz now tasks upcoming None)).
Proof.
  intros H Hin.
  rewrite ViewFacts.view_today_In, ViewFacts.view_upcoming_In.
  rewrite (ViewFacts.startOfDay_eq_iff tz _ _ H),
          (ViewFacts.startOfDay_gt_iff tz _ _ H).
  generalize (localDay tz (dueDate t)) (localDay tz now); intros d n.
  clear - Hin; intuition lia.
Qed.

(** X2.  In a time zone with the two properties above, the label of a
    stored task's card agrees with the views: it reads Today exactly when
    the task is in the Today view, and when it reads Tomorrow the task is
    in the Upcoming view; a task of the Upcoming view is labelled
    Tomorrow or with its date, never Today. *)
Theorem label_agrees_with_views (now : Z) (tasks : list Task) (t : Task) :
  midnights_in_order tz -> keeps_the_day tz -> In t tasks ->
  (formatDate tz now (dueDate t) = Today <->
     In t (getFilteredTasks tz now tasks today None)) /\
  (formatDate tz now (dueDate t) = Tomorrow ->
     In t (getFilteredTasks tz now tasks upcoming None)) /\
  (In t (getFilteredTasks tz now tasks upcoming None) ->
     formatDate tz now (dueDate t) = Tomorrow \/
     formatDate tz now (dueDate t) = MonthDay (localDay tz (dueDate t))).
Proof.
  intros H K Hin.
  rewrite ViewFacts.view_today_In, ViewFacts.view_upcoming_In.
  rewrite (ViewFacts.startOfDay_eq_iff tz _ _ H),
          (ViewFacts.startOfDay_gt_iff tz _ _ H).
  unfold formatDate, toDateString; rewrite (localDay_addDate _ _ K).
  destruct (Z.eqb_spec (localDay tz (dueDate t)) (localDay tz now)) as [E|E].
  - repeat split; auto; try discriminate; intros [_ G]; lia.
  - destruct (Z.eqb_spec (localDay tz (dueDate t)) (localDay tz now + 1)) as [E'|E'].
    + repeat split; auto; try discriminate; try tauto; lia.
    + repeat split; auto; try discriminate; tauto.
Qed.

(** X3.  In a time zone that keeps the day of a local time, the week
    start used by the statistics falls on a local Sunday: on the calendar
    day that lies as many days before today's as the weekday index of
    today says, which is at most six. *)
Theorem startOfWeek_is_a_sunday (now : Z) :
  keeps_the_day tz ->
  getDay tz (startOfWeek tz now) = 0%Z /\
  localDay tz (startOfWeek tz now) = (localDay tz now - getDay tz now)%Z /\
  (0 <= getDay tz now <= 6)%Z.
Proof.
  intros K.
  assert (G : (0 <= getDay tz now < 7)%Z)
    by (unfold getDay, WeekDay; apply Z.mod_pos_bound; lia).
  assert (D : localDay tz (startOfWeek tz now) =
              (localDay tz now - getDay tz now)%Z)
    by (unfold startOfWeek; rewrite (localDay_addDate _ _ K); lia).
  split; [|split; [exact D | lia]].
  unfold getDay at 1, WeekDay.
  change (Day (LocalTime tz (startOfWeek tz now)))
    with (localDay tz (startOfWeek tz now)).
  rewrite D; unfold getDay, WeekDay, localDay.
  generalize (Day (LocalTime tz now)); intros d.
  pose proof (Z.div_mod (d + 4) 7); pose proof (Z.mod_pos_bound (d + 4) 7).
  replace (d - (d + 4) mod 7 + 4)%Z with (((d + 4) / 7) * 7)%Z by lia.
  apply Z.mod_mul; lia.
Qed.

End LocalZone.
End DateFacts.

(** ** Deleting, and how the three updaters combine *)

Module CollectionFacts.
Import Home.

Lemma handleDeleteTask_In (i : jsstring) (prev : list Task) (t : Task) :
  In t (handleDeleteTask i prev) <-> In t prev /\ id t <> i.
Proof.
  unfold handleDeleteTask; rewrite filter_In, negb_true_iff, str_eqb_neq.
  reflexivity.
Qed.

Lemma handleDeleteTask_absent (i : jsstring) (prev : list Task) :
  ~ In i (map id prev) -> handleDeleteTask i prev = prev.
Proof.
  intros H; unfold handleDeleteTask; apply forallb_filter_id, forallb_forall.
  intros t Ht; apply negb_true_iff, str_eqb_neq.
  intros <-; apply H, in_map, Ht.
Qed.

Lemma ids_handleToggleTask (i : jsstring) (prev : list Task) :
  map id (handleToggleTask i prev) = map id prev.
Proof.
  unfold handleToggleTask; rewrite map_map; apply map_ext; intros t.
  destruct (str_eqb (id t) i); reflexivity.
Qed.

Lemma ids_handleDeleteTask (i : jsstring) (prev : list Task) :
  map id (handleDeleteTask i prev) =
  filter (fun j => negb (str_eqb j i)) (map id prev).
Proof.
  unfold handleDeleteTask; induction prev as [|t r IH]; simpl; [reflexivity|].
  destruct (str_eqb (id t) i); simpl; rewrite IH; reflexivity.
Qed.

(** X4.  Deleting by id removes every task that carries the id and no
    other: the tasks left are those with another id, in their old order;
    no task with the id is left; an id that no task carries leaves the
    collection as it is; and deleting the same id again changes
    nothing. *)
Theorem delete_removes_exactly_the_id (i : jsstring) (prev : list Task) :
  (forall t, In t (handleDeleteTask i prev) <-> In t prev /\ id t <> i) /\
  handleDeleteTask i prev = filter (fun t => negb (str_eqb (id t) i)) prev /\
  ~ In i (map id (handleDeleteTask i prev)) /\
  length (handleDeleteTask i prev) <= length prev /\
  (~ In i (map id prev) -> handleDeleteTask i prev = prev) /\
  handleDeleteTask i (handleDeleteTask i prev) = handleDeleteTask i prev.
Proof.
  split; [intros t; apply handleDeleteTask_In|].
  split; [reflexivity|].
  assert (N : ~ In i (map id (handleDeleteTask i prev))).
  { rewrite in_map_iff; intros (t & E & Ht).
    apply handleDeleteTask_In in Ht; tauto. }
  split; [exact N|].
  split; [apply filter_length_le|].
  split; [apply handleDeleteTask_absent|].
  apply handleDeleteTask_absent, N.
Qed.

(** X5.  Adding a task and then deleting by the id it was given deletes,
    besides the new task, the older tasks with that id; when no stored
    task had the id, the collection is back to what it was. *)
Theorem add_then_delete (newTask : NewTask) (now_id now_created : Z)
        (prev : list Task) :
  handleDeleteTask (toString now_id)
                   (handleAddTask newTask now_id now_created prev) =
  handleDeleteTask (toString now_id) prev /\
  (~ In (toString now_id) (map id prev) ->
   handleDeleteTask (toString now_id)
                    (handleAddTask newTask now_id now_created prev) = prev).
Proof.
  assert (E : handleDeleteTask (toString now_id)
                (handleAddTask newTask now_id now_created prev) =
              handleDeleteTask (toString now_id) prev).
  { unfold handleDeleteTask, handleAddTask; rewrite filter_app; simpl.
    rewrite str_eqb_refl; simpl; apply app_nil_r. }
  split; [exact E|].
  intros H; rewrite E; apply handleDeleteTask_absent, H.
Qed.

Lemma NoDup_filter {A : Type} (f : A -> bool) (l : list A) :
  NoDup l -> NoDup (filter f l).
Proof.
  induction 1 as [|x l Hx Hl IH]; simpl; [constructor|].
  destruct (f x); [constructor; [rewrite filter_In; tauto | exact IH] | exact IH].
Qed.

(** X6.  Ids that are pairwise distinct stay so: toggling keeps the list
    of ids as it is, deleting only removes ids, no other event touches
    the collection, and an add keeps them distinct provided the digits of
    its clock reading are not yet an id of the collection. *)
Theorem distinct_ids_are_kept (e : Event) (w w' : World) :
  step e w = Some w' ->
  NoDup (map id (tasks (home w))) ->
  (forall form now_id now_created,
     e = SubmitAdd form now_id now_created ->
     ~ In (toString now_id) (map id (tasks (home w)))) ->
  NoDup (map id (tasks (home w'))).
Proof.
  intros Hs Hnd Hfresh.
  destruct (mutation e) eqn:M.
  - destruct e; try discriminate.
    + pose proof (AddFacts.step_add_accepted _ _ _ _ _ Hs) as T.
      rewrite T, map_app; simpl.
      apply NoDup_app; repeat split; auto.
      * constructor; [intros []|constructor].
      * intros x Hx [<-|[]]; exact (Hfresh _ _ _ eq_refl Hx).
    + simpl in Hs; injection Hs as <-.
      rewrite AddFacts.tasks_setTasks, ids_handleToggleTask; exact Hnd.
    + simpl in Hs; injection Hs as <-.
      rewrite AddFacts.tasks_setTasks, ids_handleDeleteTask.
      apply NoDup_filter, Hnd.
  - destruct (SaveFacts.step_other _ _ _ M Hs) as (T & _); rewrite T; exact Hnd.
Qed.

(** X7.  Toggling one id and deleting another can be done in either
    order, and so can two toggles. *)
Theorem toggle_and_delete_commute (i j : jsstring) (prev : list Task) :
  handleToggleTask i (handleDeleteTask j prev) =
    handleDeleteTask j (handleToggleTask i prev) /\
  handleToggleTask i (handleToggleTask j prev) =
    handleToggleTask j (handleToggleTask i prev) /\
  handleDeleteTask i (handleDeleteTask j prev) =
    handleDeleteTask j (handleDeleteTask i prev).
Proof.
  unfold handleToggleTask, handleDeleteTask; split; [|split].
  - induction prev as [|t r IH]; simpl; [reflexivity|].
    destruct (str_eqb (id t) i) eqn:Ei, (str_eqb (id t) j) eqn:Ej;
      simpl; rewrite ?Ei, ?Ej; simpl; rewrite IH; reflexivity.
  - rewrite !map_map; apply map_ext; intros t.
    destruct (str_eqb (id t) i) eqn:Ei, (str_eqb (id t) j) eqn:Ej;
      simpl; rewrite ?Ei, ?Ej; reflexivity.
  - induction prev as [|t r IH]; simpl; [reflexivity|].
    destruct (str_eqb (id t) i) eqn:Ei, (str_eqb (id t) j) eqn:Ej;
      simpl; rewrite ?Ei, ?Ej; simpl; rewrite ?IH; reflexivity.
Qed.

(** X8.  When the ids are pairwise distinct, toggling the id of a stored
    task moves the number of completed tasks by exactly one: up if the
    task was open, down if it was completed. *)
Theorem toggle_moves_the_completed_count_by_one
        (prev : list Task) (t : Task) :
  NoDup (map id prev) -> In t prev ->
  (length (filter completed (handleToggleTask (id t) prev))
     + (if completed t then 1 else 0) =
   length (filter completed prev) + (if completed t then 0 else 1))%nat.
Proof.
  induction prev as [|u r IH]; intros Hnd Hin; [destruct Hin|].
  inversion Hnd as [|? ? Hu Hr]; subst.
  destruct Hin as [->|Hin].
  - change (handleToggleTask (id t) (t :: r))
      with ((if str_eqb (id t) (id t) then toggled t else t)
              :: handleToggleTask (id t) r).
    rewrite str_eqb_refl, StoreFacts.handleToggleTask_absent.
    + simpl; destruct (completed t); simpl; lia.
    + intros x Hx E; apply Hu; rewrite <- E; apply in_map, Hx.
  - specialize (IH Hr Hin).
    change (handleToggleTask (id t) (u :: r))
      with ((if str_eqb (id u) (id t) then toggled u else u)
              :: handleToggleTask (id t) r).
    destruct (str_eqb (id u) (id t)) eqn:E.
    + apply str_eqb_eq in E; exfalso; apply Hu; rewrite E; apply in_map, Hin.
    + simpl; destruct (completed u); simpl; lia.
Qed.

End CollectionFacts.

(** ** What the screens show *)

Module ScreenFacts.
Import Home.

Lemma split_by_completed (l : list Task) :
  Permutation (filter (fun t => negb (completed t)) l ++ filter completed l) l.
Proof.
  induction l as [|t r IH]; simpl; [constructor|].
  destruct (completed t); simpl.
  - apply Permutation_sym, Permutation_cons_app, Permutation_sym, IH.
  - constructor; exact IH.
Qed.

(** X9.  In the Today and Upcoming views the cards come in two groups that
    split the filtered tasks: every filtered task is in exactly one group,
    the first holds the open tasks and the second the completed ones, and
    both groups are empty (the "All caught up!" card is shown) exactly
    when no task passes the filter. *)
Theorem cards_split_the_filtered_tasks
        (tz : TimeZone) (now : Z) (w : World)
        (incompleteTasks completedTasks : list Task) :
  render tz now w = TaskCards incompleteTasks completedTasks ->
  let filteredTasks :=
    getFilteredTasks tz now (tasks (home w)) (activeView (home w))
                     (categoryFilter (home w)) in
  (activeView (home w) = today \/ activeView (home w) = upcoming) /\
  Permutation (incompleteTasks ++ completedTasks) filteredTasks /\
  (forall t, In t incompleteTasks <-> In t filteredTasks /\ completed t = false) /\
  (forall t, In t completedTasks <-> In t filteredTasks /\ completed t = true) /\
  length incompleteTasks + length completedTasks = length filteredTasks /\
  (incompleteTasks = [] /\ completedTasks = [] <-> filteredTasks = []).
Proof.
  unfold render; intros H.
  assert (V : activeView (home w) = today \/ activeView (home w) = upcoming)
    by (destruct (activeView (home w)); try discriminate; auto).
  assert (E : incompleteTasks =
                filter (fun t => negb (completed t))
                  (getFilteredTasks tz now (tasks (home w)) (activeView (home w))
                     (categoryFilter (home w))) /\
              completedTasks =
                filter completed
                  (getFilteredTasks tz now (tasks (home w)) (activeView (home w))
                     (categoryFilter (home w)))).
  { destruct (activeView (home w)); try discriminate;
      injection H as <- <-; split; reflexivity. }
  destruct E as [-> ->]; cbv zeta.
  set (l := getFilteredTasks _ _ _ _ _).
  pose proof (split_by_completed l) as P.
  split; [exact V|]; split; [exact P|].
  split; [intros t; rewrite filter_In, negb_true_iff; reflexivity|].
  split; [intros t; rewrite filter_In; reflexivity|].
  split; [rewrite <- length_app; apply Permutation_length, P|].
  split.
  - intros [E1 E2]; rewrite E1, E2 in P; apply Permutation_nil, P.
  - intros ->; split; reflexivity.
Qed.

Lemma getFilteredTasks_as_filter (tz : TimeZone) (now : Z) (v : View) (cf : option jsstring) :
  exists keep : Task -> bool,
    (forall t, keep (toggled t) = keep t) /\
    forall tasks, getFilteredTasks tz now tasks v cf = filter keep tasks.
Proof.
  assert (A : forall f g (l : list Task),
             filter f (filter g l) = filter (fun t => g t && f t) l).
  { intros f g l; induction l as [|t r IH]; simpl; [reflexivity|].
    destruct (g t); simpl; [destruct (f t)|]; rewrite IH; reflexivity. }
  assert (T : forall l : list Task, l = filter (fun _ => true) l).
  { intros l; symmetry; apply forallb_filter_id, forallb_forall; reflexivity. }
  unfold getFilteredTasks.
  destruct cf as [[|c0 c]|]; simpl; destruct v;
    eexists; (split; [| intros tasks; try rewrite A; try reflexivity; apply T ]);
    reflexivity.
Qed.

(** X10.  Completing or reopening a task never moves it to another view:
    filtering the toggled collection gives the toggled filtered list, for
    every view and category filter; likewise, deleting and then filtering
    is filtering and then deleting. *)
Theorem filtering_commutes_with_toggle_and_delete
        (tz : TimeZone) (now : Z) (v : View) (cf : option jsstring) (i : jsstring)
        (tasks : list Task) :
  getFilteredTasks tz now (handleToggleTask i tasks) v cf =
    handleToggleTask i (getFilteredTasks tz now tasks v cf) /\
  getFilteredTasks tz now (handleDeleteTask i tasks) v cf =
    handleDeleteTask i (getFilteredTasks tz now tasks v cf).
Proof.
  destruct (getFilteredTasks_as_filter tz now v cf) as (keep & K & E).
  rewrite !E; unfold handleToggleTask, handleDeleteTask; split.
  - induction tasks as [|t r IH]; simpl; [reflexivity|].
    destruct (str_eqb (id t) i) eqn:Ei; rewrite ?K;
      destruct (keep t); simpl; rewrite ?Ei, IH; reflexivity.
  - induction tasks as [|t r IH]; simpl; [reflexivity|].
    destruct (str_eqb (id t) i) eqn:Ei, (keep t) eqn:Ek; simpl;
      rewrite ?Ek, ?Ei; simpl; rewrite IH; reflexivity.
Qed.

Lemma count_app (f : Task -> bool) (a b : list Task) :
  length (filter f (a ++ b)) = length (filter f a) + length (filter f b).
Proof. rewrite filter_app, length_app; reflexivity. Qed.

Lemma filter_and_le {A : Type} (p q : A -> bool) (l : list A) :
  length (filter (fun x => p x && q x) l) <= length (filter q l).
Proof.
  induction l as [|a r IH]; simpl; [lia|].
  destruct (p a), (q a); simpl; lia.
Qed.

(** X11.  The badge of a category counts its open tasks only: it is the
    same whether or not the completed tasks are in the collection; a new
    task raises the badge of its own category by one and leaves the other
    badges alone; and the three badges together count the open tasks
    whose category is one of the three, so not more than all open
    tasks. *)
Theorem badges_count_open_tasks (tasks : list Task) :
  categoryCounts tasks =
    categoryCounts (filter (fun t => negb (completed t)) tasks) /\
  (forall newTask now_id now_created,
     categoryCounts (handleAddTask newTask now_id now_created tasks) =
     map (fun p => (fst p, if str_eqb (new_category newTask) (fst p)
                           then S (snd p) else snd p))
         (categoryCounts tasks)) /\
  list_sum (map snd (categoryCounts tasks)) =
    length (filter (fun t => existsb (str_eqb (category t)) categories
                             && negb (completed t)) tasks) /\
  list_sum (map snd (categoryCounts tasks)) <=
    length (filter (fun t => negb (completed t)) tasks).
Proof.
  assert (S3 : list_sum (map snd (categoryCounts tasks)) =
               length (filter (fun t => existsb (str_eqb (category t)) categories
                                        && negb (completed t)) tasks)).
  { unfold categoryCounts, categories; simpl.
    induction tasks as [|t r IH]; simpl; [reflexivity|].
    destruct (completed t); simpl; rewrite ?andb_false_r; simpl; [exact IH|].
    rewrite !andb_true_r.
    destruct (str_eqb (category t) (lit "Work")) eqn:E1.
    { apply str_eqb_eq in E1; rewrite E1; simpl; simpl in IH; lia. }
    destruct (str_eqb (category t) (lit "Personal")) eqn:E2.
    { apply str_eqb_eq in E2; rewrite E2; simpl; simpl in IH; lia. }
    destruct (str_eqb (category t) (lit "Shopping")) eqn:E3; simpl; simpl in IH; lia. }
  split; [|split; [|split]].
  - clear S3; unfold categoryCounts; apply map_ext; intros cat; f_equal; f_equal.
    induction tasks as [|t r IH]; simpl; [reflexivity|].
    destruct (completed t) eqn:Ec, (str_eqb (category t) cat) eqn:Eq; simpl;
      rewrite ?Ec, ?Eq; simpl; rewrite ?IH; reflexivity.
  - intros newTask now_id now_created.
    unfold categoryCounts; rewrite map_map; apply map_ext; intros cat; simpl.
    unfold handleAddTask; rewrite count_app; simpl.
    rewrite andb_true_r.
    destruct (str_eqb (new_category newTask) cat); simpl; f_equal; lia.
  - exact S3.
  - rewrite S3; apply filter_and_le.
Qed.

(** X12.  The figures of the Statistics screen fit together: the
    completed tasks are not more than all tasks; the tasks of the week
    are stored tasks, not more than all, and the completed ones among
    them not more than them; toggling changes neither of the two totals;
    and the breakdown has one row for each of the three categories. *)
Theorem statistics_are_consistent (tz : TimeZone) (now : Z) (tasks : list Task) :
  completedTasks (StatsView tz now tasks) <= totalTasks (StatsView tz now tasks) /\
  weeklyCompleted (StatsView tz now tasks) <= weeklyTotal (StatsView tz now tasks) /\
  weeklyTotal (StatsView tz now tasks) <= totalTasks (StatsView tz now tasks) /\
  (forall t, In t (weeklyTasks tz now tasks) -> In t tasks) /\
  (forall i,
     totalTasks (StatsView tz now (handleToggleTask i tasks)) =
       totalTasks (StatsView tz now tasks) /\
     weeklyTotal (StatsView tz now (handleToggleTask i tasks)) =
       weeklyTotal (StatsView tz now tasks)) /\
  map fst (breakdown (StatsView tz now tasks)) = categories.
Proof.
  simpl; repeat split; try apply filter_length_le.
  - intros t Ht; apply StatsFacts.weeklyTasks_In in Ht; tauto.
  - apply length_map.
  - unfold weeklyTasks, handleToggleTask.
    induction tasks as [|t r IH]; simpl; [reflexivity|].
    destruct (str_eqb (id t) i); simpl;
      destruct (createdAt t >=? startOfWeek tz now)%Z; simpl; rewrite IH;
      reflexivity.
Qed.

End ScreenFacts.

(** ** Reloading the page *)

Module ReloadFacts.
Import Home.

Lemma step_emptying_keeps_storage (e : Event) (w w' : World) :
  step e w = Some w' -> tasks (home w') = [] -> localStorage w' = localStorage w.
Proof.
  intros Hs He; destruct (mutation e) eqn:M.
  - destruct (SaveFacts.step_mutation _ _ _ M Hs) as (f & w0 & -> & _ & L0 & _).
    destruct (SaveFacts.setTasks_empty f w0) as (_ & L & _).
    + rewrite <- (AddFacts.tasks_setTasks f w0); exact He.
    + rewrite L; exact L0.
  - destruct (SaveFacts.step_other _ _ _ M Hs) as (_ & L & _); exact L.
Qed.

(** X13.  While the collection is not empty, reloading the page brings it
    back as it is: mounting on what is stored at that moment shows the
    same tasks, and writes them back once. *)
Theorem reload_restores_a_nonempty_collection (clock : nat -> Z) (w : World) :
  reachable w -> tasks (home w) <> [] ->
  tasks (home (mount clock (localStorage w))) = tasks (home w) /\
  localStorage (mount clock (localStorage w)) = localStorage w /\
  setItemCalls (mount clock (localStorage w)) = [tasks (home w)].
Proof.
  intros Hr Hne; rewrite (SaveFacts.stored_copy w Hr Hne).
  rewrite SaveFacts.mount_eq, SaveFacts.loadEffect_saved.
  destruct (SaveFacts.setTasks_nonempty
              (fun _ => tasks (home w))
              {| home := initialState; activeCategory := None;
                 localStorage := Some (tasks (home w)); setItemCalls := [] |}
              Hne) as (T & L & C).
  rewrite T, L, C; repeat split.
Qed.

(** X14.  An event that empties a collection that was not empty is undone
    by a reload: the page then shows the collection as it was before that
    event, deleted tasks included. *)
Theorem emptied_collection_comes_back_on_reload
        (clock : nat -> Z) (e : Event) (w w' : World) :
  reachable w -> tasks (home w) <> [] ->
  step e w = Some w' -> tasks (home w') = [] ->
  tasks (home (mount clock (localStorage w'))) = tasks (home w).
Proof.
  intros Hr Hne Hs He.
  rewrite (step_emptying_keeps_storage _ _ _ Hs He).
  apply reload_restores_a_nonempty_collection; assumption.
Qed.

End ReloadFacts.

(** ** Navigation and the category filter *)

Module NavigationFacts.
Import Home.

Lemma setTasks_keeps_filter_state (f : list Task -> list Task) (w : World) :
  activeView (home (setTasks f w)) = activeView (home w) /\
  categoryFilter (home (setTasks f w)) = categoryFilter (home w) /\
  activeCategory (setTasks f w) = activeCategory w.
Proof.
  unfold setTasks, saveEffect; simpl.
  destruct (0 <? _)%nat; repeat split.
Qed.

Lemma visited_filter_state (w : World) : visited w -> filter_state_ok w.
Proof.
  induction 1 as [clock stored | e w w' Hv [IH1 IH2] Ho Hs].
  - unfold filter_state_ok; rewrite SaveFacts.mount_eq.
    destruct (setTasks_keeps_filter_state
                (fun _ => loadEffect clock stored)
                {| home := initialState; activeCategory := None;
                   localStorage := stored; setItemCalls := [] |})
      as (V & F & A).
    rewrite V, F, A; simpl; auto.
  - unfold filter_state_ok.
    destruct e; simpl in Hs.
    + destruct (QuickAddModal_handleSubmit form); [|discriminate].
      injection Hs as <-.
      match goal with |- context [setTasks ?f ?v] =>
        destruct (setTasks_keeps_filter_state f v) as (V & F & A)
      end.
      rewrite V, F, A; simpl; auto.
    + injection Hs as <-.
      destruct (setTasks_keeps_filter_state (handleToggleTask i) w) as (V & F & A).
      rewrite V, F, A; auto.
    + injection Hs as <-.
      destruct (setTasks_keeps_filter_state (handleDeleteTask i) w) as (V & F & A).
      rewrite V, F, A; auto.
    + injection Hs as <-; simpl; split; [|left; reflexivity].
      intros ->; rewrite andb_false_r; auto.
    + injection Hs as <-; simpl.
      change (is_lists (activeView (home w))
              && existsb (str_eqb cat) categories = true) in Ho.
      apply andb_true_iff in Ho; destruct Ho as [Hl Hc].
      split; [intros E; rewrite E in Hl; discriminate|].
      apply existsb_exists in Hc; destruct Hc as (c & Hin & Ec).
      apply str_eqb_eq in Ec; subst c.
      unfold handleCategoryClick.
      destruct (activeCategory w) as [a|]; [destruct (str_eqb a cat)|]; eauto.
    + injection Hs as <-; simpl; split; [|left; reflexivity].
      intros E; split; [reflexivity | apply IH1, E].
    + injection Hs as <-; simpl; auto.
    + injection Hs as <-; simpl; auto.
    + injection Hs as <-; simpl; auto.
    + injection Hs as <-; simpl; auto.
Qed.

(** X15.  Whatever the user does, no category filter is set while the
    Today, the Upcoming or the Statistics view is open, because every
    navigation button clears it: the cards of Today and Upcoming are
    always those of the date filter alone. *)
Theorem task_views_are_never_narrowed (tz : TimeZone) (now : Z) (w : World) :
  visited w ->
  (activeView (home w) <> lists -> categoryFilter (home w) = None) /\
  forall incompleteTasks completedTasks,
    render tz now w = TaskCards incompleteTasks completedTasks ->
    incompleteTasks =
      filter (fun t => negb (completed t))
        (getFilteredTasks tz now (tasks (home w)) (activeView (home w)) None) /\
    completedTasks =
      filter completed
        (getFilteredTasks tz now (tasks (home w)) (activeView (home w)) None).
Proof.
  intros Hv; destruct (visited_filter_state w Hv) as [I1 _].
  assert (N : activeView (home w) <> lists -> categoryFilter (home w) = None).
  { intros Hn; apply I1; destruct (activeView (home w)); try reflexivity.
    congruence. }
  split; [exact N|].
  intros inc comp; unfold render.
  destruct (activeView (home w)) eqn:V; try discriminate;
    rewrite N by discriminate; intros [= <- <-]; split; reflexivity.
Qed.

(** X16.  A category filter, when one is set, is one of the three
    categories, the Lists view is open, and the card highlighted there is
    that category. *)
Theorem filter_is_the_highlighted_category (w : World) (c : jsstring) :
  visited w -> categoryFilter (home w) = Some c ->
  In c categories /\ activeView (home w) = lists /\ activeCategory w = Some c.
Proof.
  intros Hv Hc; destruct (visited_filter_state w Hv) as [I1 I2].
  destruct I2 as [E | (E & c' & Ec & Hin)]; [congruence|].
  rewrite Hc in Ec; injection Ec as <-.
  split; [exact Hin|]; split; [|congruence].
  destruct (activeView (home w)) eqn:V; try reflexivity;
    destruct (I1 eq_refl); congruence.
Qed.

End NavigationFacts.

(** ** The message log *)

Module LogFacts.
Import AIChat.

Lemma other_involutive (r : Role) : other (other r) = r.
Proof. destruct r; reflexivity. Qed.

Lemma alternates_snoc (l : list ChatMessage) (next : Role) (m : ChatMessage) :
  alternates next l = true ->
  type m = (if Nat.even (length l) then next else other next) ->
  alternates next (l ++ [m]) = true.
Proof.
  revert next; induction l as [|x r IH]; intros next Ha Hm.
  - simpl in *; rewrite Hm; destruct next; reflexivity.
  - simpl in Ha; apply andb_true_iff in Ha; destruct Ha as [Hx Hr].
    change (role_eqb (type x) next && alternates (other next) (r ++ [m]) = true).
    rewrite Hx; apply IH; [exact Hr|].
    change (length (x :: r)) with (S (length r)) in Hm.
    rewrite Hm, Nat.even_succ, <- Nat.negb_even, other_involutive.
    destruct (Nat.even (length r)); reflexivity.
Qed.

Lemma even_snoc {A : Type} (l : list A) (x : A) :
  Nat.even (length (l ++ [x])) = negb (Nat.even (length l)).
Proof.
  rewrite length_app, Nat.add_1_r, Nat.even_succ.
  symmetry; apply Nat.negb_even.
Qed.

(** X17.  In every state the dialog can reach, the log takes strict
    turns, beginning with the user: each user message is followed by one
    assistant message and the reverse; and a reply is awaited exactly
    when the last message is the user's, that is, when the log has odd
    length. *)
Theorem log_alternates (w : World) :
  reachable w ->
  alternates user (messages (ui w)) = true /\
  Nat.even (length (messages (ui w))) = negb (loading (ui w)).
Proof.
  induction 1 as [|e w Hr [IHa IHe] Ha]; [split; reflexivity|].
  pose proof (ChatFacts.loading_invariant w Hr) as [_ Hi].
  assert (Send : forall text n1 n2,
             loading (ui w) = false ->
             alternates user (messages (ui (handleSendMessage text n1 n2 w))) = true /\
             Nat.even (length (messages (ui (handleSendMessage text n1 n2 w)))) =
               negb (loading (ui (handleSendMessage text n1 n2 w)))).
  { intros text n1 n2 Hl; simpl; rewrite Hl in IHe; split.
    - apply alternates_snoc; [exact IHa | rewrite IHe; reflexivity].
    - rewrite even_snoc, IHe; reflexivity. }
  destruct e as [s | n1 n2 | k n1 n2 | awaited clock]; simpl in Ha |- *.
  - split; assumption.
  - unfold handleSubmit.
    destruct (negb (truthy (trim (input (ui w)))) || loading (ui w)) eqn:G;
      [split; assumption|].
    apply orb_false_iff in G; destruct G as [_ G]; apply Send, G.
  - apply andb_true_iff in Ha; destruct Ha as [Ha _]; apply Nat.eqb_eq in Ha.
    unfold handleSuggestionClick; apply Send.
    rewrite Ha in IHe; simpl in IHe; destruct (loading (ui w)); [discriminate|reflexivity].
  - apply Nat.ltb_lt in Ha.
    assert (Hl : loading (ui w) = true)
      by (destruct (loading (ui w)); [reflexivity | lia]).
    rewrite Hl in IHe; split.
    + apply alternates_snoc; [exact IHa|].
      rewrite IHe; apply ChatFacts.replyMessage_type.
    + rewrite even_snoc, IHe; reflexivity.
Qed.

(** X18.  In every state the dialog can reach, the calls made to the
    assistant are exactly the user messages of the log, in order: one
    call per user message, carrying its text and the fixed agent id. *)
Theorem one_request_per_user_message (w : World) :
  reachable w ->
  requests w =
    map (fun m => (content m, AGENT_ID))
        (filter (fun m => role_eqb (type m) user) (messages (ui w))) /\
  length (requests w) = countRole user (messages (ui w)).
Proof.
  intros Hr.
  assert (E : requests w =
              map (fun m => (content m, AGENT_ID))
                  (filter (fun m => role_eqb (type m) user) (messages (ui w)))).
  { induction Hr as [|e w Hr IH Ha]; [reflexivity|].
    assert (Send : forall text n1 n2,
               requests (handleSendMessage text n1 n2 w) =
               map (fun m => (content m, AGENT_ID))
                   (filter (fun m => role_eqb (type m) user)
                           (messages (ui (handleSendMessage text n1 n2 w))))).
    { intros; simpl; rewrite filter_app, map_app, IH; reflexivity. }
    destruct e as [s | n1 n2 | k n1 n2 | awaited clock]; simpl.
    - exact IH.
    - destruct (handleSubmit n1 n2 w) as [w'|] eqn:Hs; [|exact IH].
      unfold handleSubmit in Hs; destruct (_ || _); [discriminate|].
      injection Hs as <-; apply Send.
    - apply Send.
    - rewrite filter_app; simpl.
      rewrite ChatFacts.replyMessage_type; simpl.
      rewrite app_nil_r; exact IH. }
  split; [exact E|].
  rewrite E, length_map; reflexivity.
Qed.

(** X19.  The log only grows, by at most one message per event, and what
    was in it stays in front unchanged; so once a message has been sent
    the suggestion buttons are never offered again. *)
Theorem log_is_append_only (e : Event) (w : World) :
  (exists l, messages (ui (run e w)) = messages (ui w) ++ l /\ length l <= 1) /\
  (messages (ui w) <> [] ->
   messages (ui (run e w)) <> [] /\
   forall k now_id now_ts,
     available (SuggestionClick k now_id now_ts) (run e w) = false).
Proof.
  assert (G : exists l, messages (ui (run e w)) = messages (ui w) ++ l /\
                        length l <= 1).
  { destruct e as [s | n1 n2 | k n1 n2 | awaited clock]; simpl.
    - exists []; rewrite app_nil_r; auto.
    - unfold handleSubmit; destruct (_ || _); simpl.
      + exists []; rewrite app_nil_r; auto.
      + eexists; split; [reflexivity | simpl; lia].
    - eexists; split; [reflexivity | simpl; lia].
    - eexists; split; [reflexivity | simpl; lia]. }
  split; [exact G|].
  intros Hne; destruct G as (l & E & _).
  assert (N : messages (ui (run e w)) <> [])
    by (rewrite E; destruct (messages (ui w)); [congruence | discriminate]).
  split; [exact N|].
  intros k n1 n2.
  change (available (SuggestionClick k n1 n2) (run e w))
    with ((length (messages (ui (run e w))) =? 0)%nat
          && (k <? length suggestions)%nat).
  destruct (messages (ui (run e w))); [congruence | reflexivity].
Qed.

(** X20.  A submit of the form is accepted exactly when the input has a
    character that is not white space and no reply is awaited.  It then
    appends the input, untrimmed, as a user message, empties the input
    field, marks the dialog as loading and makes one call with that
    text. *)
Theorem submit_is_validated (now_id now_ts : Z) (w : World) :
  (handleSubmit now_id now_ts w = None <->
   forallb isWhiteSpace (input (ui w)) = true \/ loading (ui w) = true) /\
  forall w', handleSubmit now_id now_ts w = Some w' ->
    messages (ui w') =
      messages (ui w) ++ [userMessage (input (ui w)) now_id now_ts] /\
    input (ui w') = [] /\ loading (ui w') = true /\
    requests w' = requests w ++ [(input (ui w), AGENT_ID)] /\
    inflight w' = S (inflight w).
Proof.
  unfold handleSubmit; rewrite <- trim_nil_iff.
  destruct (trim (input (ui w))) eqn:T, (loading (ui w)) eqn:L; simpl;
    (split; [split; [try discriminate; auto | intros [H|H]; congruence]|]);
    intros w' H; try discriminate; injection H as <-; repeat split.
Qed.

Lemma replyMessage_id (awaited : Settlement) (clock : nat -> Z) :
  exists k, id (replyMessage awaited clock) = toString (clock k + 1).
Proof.
  unfold replyMessage, tryBlock.
  destruct awaited as [res|]; simpl; [|exists 0; reflexivity].
  destruct (success res && _); simpl; [|exists 0; reflexivity].
  destruct (result (response res)); simpl; [exists 0 | exists 1]; reflexivity.
Qed.

(** X21.  When the clock does not run backwards between the sending of a
    message and its reply, the reply's id differs from the id of the
    message it answers, even if both are made at the same clock
    reading. *)
Theorem reply_id_differs_from_its_message
        (text : jsstring) (now_id now_ts : Z)
        (awaited : Settlement) (clock : nat -> Z) :
  (forall k, (now_id <= clock k)%Z) ->
  id (replyMessage awaited clock) <> id (userMessage text now_id now_ts).
Proof.
  intros Hm; destruct (replyMessage_id awaited clock) as (k & ->); simpl.
  intros E; apply toString_inj in E; specialize (Hm k); lia.
Qed.

(** X22.  A payload that reports success but carries no result is shown
    as a network error: reading the answer throws inside the [try]
    block, and the [catch] block supplies the network text with no tips,
    suggestions or topics. *)
Theorem success_without_result_reads_as_network_error
        (res : NormalizedAgentResponse) (clock : nat -> Z) :
  success res = true -> status (response res) = lit "success" ->
  result (response res) = None ->
  replyMessage (Fulfilled res) clock = catchBlock TypeError clock /\
  content (replyMessage (Fulfilled res) clock) =
    lit "Network error. Please check your connection and try again." /\
  tips (replyMessage (Fulfilled res) clock) = None.
Proof.
  intros Hs Ht Hn; unfold replyMessage, tryBlock; simpl.
  rewrite Hs, Ht, Hn; repeat split.
Qed.

End LogFacts.

(** ** The further theorems at concrete inputs *)

Module MoreInstances.
Import Examples.

Lemma store_ids_distinct : NoDup (map Home.id store).
Proof.
  repeat constructor; simpl; intuition discriminate.
Defined.

Lemma views_split_by_calendar_day_witness :
  In lateEvening
     (Home.getFilteredTasks new_york_2024 nov3_10am fallBackStore Home.today None) /\
  In nextDay
     (Home.getFilteredTasks new_york_2024 nov3_10am fallBackStore Home.upcoming None).
Proof.
  destruct (DateFacts.views_split_by_calendar_day
              new_york_2024 nov3_10am fallBackStore lateEvening
              ZoneFacts.new_york_midnights_in_order
              (or_intror (or_introl eq_refl))) as (A & _).
  destruct (DateFacts.views_split_by_calendar_day
              new_york_2024 nov3_10am fallBackStore nextDay
              ZoneFacts.new_york_midnights_in_order
              (or_intror (or_intror (or_introl eq_refl)))) as (_ & B & _).
  split; [apply (proj2 A) | apply (proj2 B)]; vm_compute; reflexivity.
Defined.

Lemma label_agrees_with_views_witness :
  Home.formatDate new_york_2024 nov3_10am (Home.dueDate nextDay) = Home.Tomorrow /\
  In nextDay
     (Home.getFilteredTasks new_york_2024 nov3_10am fallBackStore Home.upcoming None).
Proof.
  split; [vm_compute; reflexivity|].
  destruct (DateFacts.label_agrees_with_views
              new_york_2024 nov3_10am fallBackStore nextDay
              ZoneFacts.new_york_midnights_in_order
              ZoneFacts.new_york_keeps_the_day
              (or_intror (or_intror (or_introl eq_refl)))) as (_ & A & _).
  apply A; vm_compute; reflexivity.
Defined.

(** On Wednesday 6 November 2024 at 00:30 EST the week start is Sunday
    3 November at 00:30 EDT, three days and one hour earlier. *)
Lemma startOfWeek_is_a_sunday_witness :
  Home.startOfWeek new_york_2024 nov6_half_past_midnight = 1730608200000%Z /\
  getDay new_york_2024 (Home.startOfWeek new_york_2024 nov6_half_past_midnight)
    = 0%Z.
Proof.
  split; [vm_compute; reflexivity|].
  destruct (DateFacts.startOfWeek_is_a_sunday new_york_2024 nov6_half_past_midnight
              ZoneFacts.new_york_keeps_the_day) as (A & _).
  exact A.
Defined.

Lemma delete_removes_exactly_the_id_witness :
  ~ In (lit "404") (map Home.id store) /\
  Home.handleDeleteTask (lit "404") store = store.
Proof.
  assert (H : ~ In (lit "404") (map Home.id store))
    by (simpl; intuition discriminate).
  split; [exact H|].
  destruct (CollectionFacts.delete_removes_exactly_the_id (lit "404") store)
    as (_ & _ & _ & _ & A & _).
  exact (A H).
Defined.

Lemma add_then_delete_witness :
  Home.handleDeleteTask (toString sunday_3pm)
    (Home.handleAddTask (form "Buy milk") sunday_3pm sunday_3pm store) = store.
Proof.
  destruct (CollectionFacts.add_then_delete (form "Buy milk")
              sunday_3pm sunday_3pm store) as (_ & A).
  apply A; vm_compute; intuition discriminate.
Defined.

Lemma distinct_ids_are_kept_witness :
  NoDup (map Home.id
           (Home.tasks (Home.home
              (Home.run (Home.SubmitAdd (form "Buy milk") sunday_3pm sunday_3pm)
                        (Home.mount clock (Some store)))))).
Proof.
  apply (CollectionFacts.distinct_ids_are_kept
           (Home.SubmitAdd (form "Buy milk") sunday_3pm sunday_3pm)
           (Home.mount clock (Some store))).
  - reflexivity.
  - exact store_ids_distinct.
  - intros f n c [= _ <- _]; vm_compute; intuition discriminate.
Defined.

Lemma toggle_moves_the_completed_count_by_one_witness :
  length (filter Home.completed
            (Home.handleToggleTask (Home.id dueToday) store)) = 2.
Proof.
  pose proof (CollectionFacts.toggle_moves_the_completed_count_by_one
                store dueToday store_ids_distinct (or_introl eq_refl)) as H.
  simpl in H |- *; lia.
Defined.

Lemma cards_split_the_filtered_tasks_witness :
  length [dueToday] + length (@nil Home.Task) =
  length (Home.getFilteredTasks utc sunday_3pm store Home.today None).
Proof.
  destruct (ScreenFacts.cards_split_the_filtered_tasks
              utc sunday_3pm (Home.mount clock (Some store)) [dueToday] [])
    as (_ & _ & _ & _ & A & _); [vm_compute; reflexivity|].
  exact A.
Defined.

Lemma statistics_are_consistent_witness :
  In doneThisMorning (store ++ [doneThisMorning]).
Proof.
  destruct (ScreenFacts.statistics_are_consistent
              utc sunday_10am (store ++ [doneThisMorning])) as (_ & _ & _ & A & _).
  apply A; vm_compute; left; reflexivity.
Defined.

Lemma reload_restores_a_nonempty_collection_witness :
  Home.tasks (Home.home
    (Home.mount clock
       (Home.localStorage
          (Home.run (Home.ToggleTask (lit "11")) (Home.mount clock (Some store))))))
  = Home.handleToggleTask (lit "11") store.
Proof.
  destruct (ReloadFacts.reload_restores_a_nonempty_collection clock
              (Home.run (Home.ToggleTask (lit "11")) (Home.mount clock (Some store))))
    as (A & _).
  - exact (Home.reach_step (Home.ToggleTask (lit "11")) _ _
             (Home.reach_mount clock (Some store)) eq_refl).
  - discriminate.
  - exact A.
Defined.

Lemma emptied_collection_comes_back_on_reload_witness :
  Home.tasks (Home.home
    (Home.run (Home.DeleteTask (lit "11")) (Home.mount clock (Some [dueToday]))))
  = [] /\
  Home.tasks (Home.home
    (Home.mount clock
       (Home.localStorage
          (Home.run (Home.DeleteTask (lit "11"))
                    (Home.mount clock (Some [dueToday]))))))
  = [dueToday].
Proof.
  split; [reflexivity|].
  apply (ReloadFacts.emptied_collection_comes_back_on_reload clock
           (Home.DeleteTask (lit "11")) (Home.mount clock (Some [dueToday]))).
  - apply Home.reach_mount.
  - discriminate.
  - reflexivity.
  - reflexivity.
Defined.

Lemma lists_with_work_selected_visited :
  Home.visited
    (Home.run (Home.CategoryClick (lit "Work"))
       (Home.run (Home.Navigate Home.lists) (Home.mount clock (Some store)))).
Proof.
  apply (Home.visit_step (Home.CategoryClick (lit "Work"))
           (Home.run (Home.Navigate Home.lists) (Home.mount clock (Some store))));
    [|reflexivity|reflexivity].
  apply (Home.visit_step (Home.Navigate Home.lists)
           (Home.mount clock (Some store))); [|reflexivity|reflexivity].
  apply Home.visit_mount.
Defined.

Lemma task_views_are_never_narrowed_witness :
  Home.categoryFilter
    (Home.home
       (Home.run (Home.Navigate Home.today)
          (Home.run (Home.CategoryClick (lit "Work"))
             (Home.run (Home.Navigate Home.lists)
                (Home.mount clock (Some store)))))) = None.
Proof.
  apply (NavigationFacts.task_views_are_never_narrowed utc sunday_3pm).
  - apply (Home.visit_step (Home.Navigate Home.today) _ _
             lists_with_work_selected_visited); reflexivity.
  - discriminate.
Defined.

Lemma filter_is_the_highlighted_category_witness :
  Home.activeCategory
    (Home.run (Home.CategoryClick (lit "Work"))
       (Home.run (Home.Navigate Home.lists) (Home.mount clock (Some store))))
  = Some (lit "Work").
Proof.
  apply (NavigationFacts.filter_is_the_highlighted_category _ (lit "Work")
           lists_with_work_selected_visited).
  reflexivity.
Defined.

Lemma awaiting_reply_reachable :
  AIChat.reachable
    (AIChat.run (AIChat.SuggestionClick 0 sunday_3pm sunday_3pm) AIChat.initial).
Proof.
  apply AIChat.reach_run; [apply AIChat.reach_initial | reflexivity].
Defined.

Lemma log_alternates_witness :
  AIChat.alternates AIChat.user
    (AIChat.messages (AIChat.ui
       (AIChat.run (AIChat.Settle (AIChat.Fulfilled softError) clock)
          (AIChat.run (AIChat.SuggestionClick 0 sunday_3pm sunday_3pm)
                      AIChat.initial)))) = true.
Proof.
  apply LogFacts.log_alternates.
  apply AIChat.reach_run; [exact awaiting_reply_reachable | reflexivity].
Defined.

Lemma one_request_per_user_message_witness :
  AIChat.requests
    (AIChat.run (AIChat.SuggestionClick 0 sunday_3pm sunday_3pm) AIChat.initial)
  = [(lit "Prioritize my tasks", AIChat.AGENT_ID)].
Proof.
  destruct (LogFacts.one_request_per_user_message _ awaiting_reply_reachable)
    as (A & _).
  exact A.
Defined.

Lemma log_is_append_only_witness :
  AIChat.available (AIChat.SuggestionClick 1 monday_9am monday_9am)
    (AIChat.run (AIChat.Settle AIChat.RejectedPromise clock)
       (AIChat.run (AIChat.SuggestionClick 0 sunday_3pm sunday_3pm)
                   AIChat.initial)) = false.
Proof.
  destruct (LogFacts.log_is_append_only
              (AIChat.Settle AIChat.RejectedPromise clock)
              (AIChat.run (AIChat.SuggestionClick 0 sunday_3pm sunday_3pm)
                          AIChat.initial)) as (_ & A).
  apply A; discriminate.
Defined.

Lemma submit_is_validated_witness :
  let w := AIChat.run (AIChat.TypeInput (lit " Plan my week ")) AIChat.initial in
  exists w',
    AIChat.handleSubmit sunday_3pm sunday_3pm w = Some w' /\
    AIChat.requests w' = [(lit " Plan my week ", AIChat.AGENT_ID)] /\
    AIChat.input (AIChat.ui w') = [].
Proof.
  cbv zeta; eexists; split; [reflexivity|].
  destruct (LogFacts.submit_is_validated sunday_3pm sunday_3pm
              (AIChat.run (AIChat.TypeInput (lit " Plan my week ")) AIChat.initial))
    as (_ & A).
  destruct (A _ eq_refl) as (_ & A2 & _ & A4 & _).
  split; [exact A4 | exact A2].
Defined.

Lemma reply_id_differs_from_its_message_witness :
  AIChat.id (AIChat.replyMessage (AIChat.Fulfilled softError) clock) <>
  AIChat.id (AIChat.userMessage (lit "Prioritize my tasks") sunday_3pm sunday_3pm).
Proof.
  apply LogFacts.reply_id_differs_from_its_message.
  intros k; unfold clock; lia.
Defined.

Lemma success_without_result_reads_as_network_error_witness :
  AIChat.content
    (AIChat.replyMessage
       (AIChat.Fulfilled
          {| AIChat.success := true;
             AIChat.response := {| AIChat.status := lit "success";
                                   AIChat.result := None;
                                   AIChat.message := None |} |}) clock)
  = lit "Network error. Please check your connection and try again.".
Proof.
  apply (LogFacts.success_without_result_reads_as_network_error
           {| AIChat.success := true;
              AIChat.response := {| AIChat.status := lit "success";
                                    AIChat.result := None;
                                    AIChat.message := None |} |} clock);
    reflexivity.
Defined.

End MoreInstances.
